(** * heart-backend: swipe-to-match resolution and match-scoped chat

    A shallow embedding of the core of [index.js]: the helpers [orderPair]
    and [userInMatch], and the handlers of [POST /swipe], [GET /messages],
    [POST /messages] and [DELETE /admin/user/:id].

    Every handler of the source is an [async] function that talks to the
    store only through [await db.getQuery(sql, params)].  A handler is
    embedded as a program [prog] whose only effect is [Await]: the
    statement it sends and the continuation that receives the result.  One
    program is run alone by [run]; several are interleaved at their
    [await] points by [run_schedule], as the event loop does with
    concurrent requests.

    Beside this core the file embeds the statements that [GET /profiles]
    and [PUT /update-profile] build, [GET /matches], and, in the module
    [Accounts], the handlers of [POST /register], [POST /login],
    [POST /admin/ban] and [POST /admin/verify].

    The module [./classes/database.js] and the schema are not part of the
    sources.  The store is modelled by the three tables the statements of
    the core name, with the columns those statements use, AUTO_INCREMENT
    keys, and a clock that stamps [sent_at].  What the sources do not fix
    is taken as a parameter, the record [platform]. *)

From Stdlib Require Import ZArith List Ascii String DecimalString Bool Lia
  Permutation Sorted.
Import ListNotations.
Open Scope string_scope.
Open Scope Z_scope.

(** ** JavaScript values of a parsed JSON body or query string *)

Inductive value : Type :=
  | VUndefined
  | VNull
  | VBool (b : bool)
  | VNum (n : Z)
  | VStr (s : string).

(** The result of [Number(v)]: an integer or [NaN].  User ids are integer
    keys; doubles that are not integers are outside the model. *)
Inductive number : Type :=
  | NaN
  | Fin (z : Z).

Inductive dir : Type := left_ | right_.

(** ** Rows of the store *)

Record swipe_row : Type := mkSwipe
  { sw_id : Z; swiper_id : Z; target_id : Z; sw_direction : dir }.

Record match_row : Type := mkMatch
  { m_id : Z; user1_id : Z; user2_id : Z }.

Record message_row : Type := mkMessage
  { msg_id : Z; match_id : Z; sender_id : Z; content : value; sent_at : Z }.

Record db : Type := mkDb
  { swipes : list swipe_row;
    matches : list match_row;
    messages : list message_row;
    next_swipe : Z;
    next_match : Z;
    next_message : Z;
    clock : Z }.

Definition empty_db : db := mkDb [] [] [] 1 1 1 0.

(** ** What the sources leave to the runtime and to the schema *)

Record platform : Type := mkPlatform
  { (* ECMAScript StringToNumber, the string case of [Number(v)] *)
    StringToNumber : string -> number;
    (* how the store reads a string bound against an integer column;
       [None] when it rejects it *)
    sql_int_of_string : string -> option Z;
    (* whether [matches] carries a unique key on (user1_id, user2_id) *)
    unique_pair_key : bool;
    (* the row order the store produces for [ORDER BY sent_at ASC] *)
    order_by_sent_at : list message_row -> list message_row }.

(** The contract of [ORDER BY sent_at ASC]: the same rows, in
    non-decreasing [sent_at] order.  SQL leaves the order of rows with
    equal keys to the store. *)
Definition sent_at_le (x y : message_row) : Prop := sent_at x <= sent_at y.

Definition order_by_contract (pf : platform) : Prop :=
  forall l, Permutation l (order_by_sent_at pf l)
            /\ StronglySorted sent_at_le (order_by_sent_at pf l).

(** ** Statements and their results *)

Inductive query : Type :=
  (* INSERT INTO swipes (swiper_id, target_id, direction) VALUES (?, ?, ?) *)
  | InsertSwipe (p1 p2 p3 : value)
  (* SELECT id FROM swipes WHERE swiper_id = ? AND target_id = ?
     AND direction = ? LIMIT 1 *)
  | SelectSwipe (p1 p2 p3 : value)
  (* SELECT id FROM matches WHERE (user1_id = ? AND user2_id = ?) LIMIT 1 *)
  | SelectMatchPair (p1 p2 : number)
  (* INSERT INTO matches (user1_id, user2_id) VALUES (?, ?) *)
  | InsertMatch (p1 p2 : number)
  (* SELECT id FROM matches WHERE id = ?
     AND (user1_id = ? OR user2_id = ?) LIMIT 1 *)
  | SelectMatchMember (p1 p2 p3 : value)
  (* SELECT id, sender_id, content, sent_at FROM messages
     WHERE match_id = ? ORDER BY sent_at ASC *)
  | SelectMessages (p1 : value)
  (* INSERT INTO messages (match_id, sender_id, content) VALUES (?, ?, ?) *)
  | InsertMessage (p1 p2 p3 : value)
  (* DELETE FROM user_photos WHERE user_id = ? *)
  | DeletePhotos (p1 : value)
  (* DELETE FROM swipes WHERE swiper_id = ? OR target_id = ? *)
  | DeleteSwipes (p1 p2 : value)
  (* DELETE FROM messages WHERE sender_id = ? *)
  | DeleteMessages (p1 : value)
  (* DELETE FROM matches WHERE user1_id = ? OR user2_id = ? *)
  | DeleteMatches (p1 p2 : value)
  (* DELETE FROM users WHERE id = ? *)
  | DeleteUser (p1 : value).

(** A row of the [GET /messages] answer: id, sender_id, content, sent_at. *)
Record message_out : Type := mkOut
  { o_id : Z; o_sender_id : Z; o_content : value; o_sent_at : Z }.

Inductive result : Type :=
  | Rows (ids : list Z)
  | MessageRows (rows : list message_out)
  | OkPacket (insertId : Z).

Definition rows_of (r : result) : list Z :=
  match r with Rows ids => ids | _ => [] end.

Definition message_rows_of (r : result) : list message_out :=
  match r with MessageRows rows => rows | _ => [] end.

Definition insertId_of (r : result) : option Z :=
  match r with OkPacket i => Some i | _ => None end.

(** ** Responses *)

Inductive body : Type :=
  (* { message } *)
  | Message (message : string)
  (* { message, matched, matchId } ; [None] when the key is not set *)
  | SwipeBody (message : string) (matched : bool) (matchId : option Z)
  (* the rows of GET /messages *)
  | MessageList (rows : list message_out)
  (* { message, messageId } *)
  | SentBody (message : string) (messageId : option Z).

Record response : Type := mkResponse { status : Z; json : body }.

(** ** Programs: the awaits of an async function *)

Inductive prog (A : Type) : Type :=
  | Ret (a : A)
  | Await (q : query) (k : result -> prog A).

Arguments Ret {A} a.
Arguments Await {A} q k.

Fixpoint bind {A B : Type} (p : prog A) (f : A -> prog B) : prog B :=
  match p with
  | Ret a => f a
  | Await q k => Await q (fun r => bind (k r) f)
  end.

Notation "x <- p ;; k" := (bind p (fun x => k))
  (at level 61, p at next level, right associativity).

(** [await db.getQuery(sql, params)] *)
Definition getQuery (q : query) : prog result := Await q (fun r => Ret r).

(** ** Record updates of the store *)

Definition add_swipe (d : db) (a b : Z) (c : dir) : db :=
  mkDb (swipes d ++ [mkSwipe (next_swipe d) a b c]) (matches d) (messages d)
       (next_swipe d + 1) (next_match d) (next_message d) (clock d).

Definition add_match (d : db) (u1 u2 : Z) : db :=
  mkDb (swipes d) (matches d ++ [mkMatch (next_match d) u1 u2]) (messages d)
       (next_swipe d) (next_match d + 1) (next_message d) (clock d).

Definition add_message (d : db) (m s : Z) (c : value) : db :=
  mkDb (swipes d) (matches d)
       (messages d ++ [mkMessage (next_message d) m s c (clock d)])
       (next_swipe d) (next_match d) (next_message d + 1) (clock d).

Definition set_swipes (d : db) (l : list swipe_row) : db :=
  mkDb l (matches d) (messages d)
       (next_swipe d) (next_match d) (next_message d) (clock d).

Definition set_matches (d : db) (l : list match_row) : db :=
  mkDb (swipes d) l (messages d)
       (next_swipe d) (next_match d) (next_message d) (clock d).

Definition set_messages (d : db) (l : list message_row) : db :=
  mkDb (swipes d) (matches d) l
       (next_swipe d) (next_match d) (next_message d) (clock d).

(** The clock of the store moves forward between statements. *)
Definition advance (t : Z) (d : db) : db :=
  mkDb (swipes d) (matches d) (messages d)
       (next_swipe d) (next_match d) (next_message d) (Z.max (clock d) t).

Definition dir_eqb (x y : dir) : bool :=
  match x, y with
  | left_, left_ | right_, right_ => true
  | _, _ => false
  end.

(** A column compared with a bound parameter; a parameter the store reads
    as NULL compares equal to nothing. *)
Definition int_is (col : Z) (p : option Z) : bool :=
  match p with Some z => col =? z | None => false end.

Definition dir_is (col : dir) (p : option dir) : bool :=
  match p with Some c => dir_eqb col c | None => false end.

Definition out_of (m : message_row) : message_out :=
  mkOut (msg_id m) (sender_id m) (content m) (sent_at m).

Section Core.

Variable pf : platform.

(** ** JavaScript operators used by the handlers *)

(** [Number(v)] *)
Definition Number (v : value) : number :=
  match v with
  | VUndefined => NaN
  | VNull => Fin 0
  | VBool b => Fin (if b then 1 else 0)
  | VNum n => Fin n
  | VStr s => StringToNumber pf s
  end.

(** [!v] is [negb (truthy v)] *)
Definition truthy (v : value) : bool :=
  match v with
  | VUndefined | VNull => false
  | VBool b => b
  | VNum n => negb (n =? 0)
  | VStr s => negb (String.eqb s "")
  end.

(** [x < y] on numbers: false as soon as one side is NaN *)
Definition num_lt (x y : number) : bool :=
  match x, y with
  | Fin a, Fin b => a <? b
  | _, _ => false
  end.

(** [x === y] on numbers: NaN is equal to nothing, itself included *)
Definition num_strict_eq (x y : number) : bool :=
  match x, y with
  | Fin a, Fin b => a =? b
  | _, _ => false
  end.

(** [list.includes(v)] for a list of string literals *)
Definition includes (l : list string) (v : value) : bool :=
  match v with
  | VStr s => existsb (String.eqb s) l
  | _ => false
  end.

(** [v === 'lit'] *)
Definition is_string (v : value) (lit : string) : bool :=
  match v with
  | VStr s => String.eqb s lit
  | _ => false
  end.

(** [function orderPair(a, b)] *)
Definition orderPair (a b : value) : number * number :=
  if num_lt (Number a) (Number b)
  then (Number a, Number b)
  else (Number b, Number a).

(** ** The store: one statement at a time *)

Definition sqlInt (v : value) : option Z :=
  match v with
  | VNum n => Some n
  | VStr s => sql_int_of_string pf s
  | VBool b => Some (if b then 1 else 0)
  | VNull | VUndefined => None
  end.

(** A JavaScript number as a parameter: NaN is no SQL literal. *)
Definition sqlNumber (n : number) : option Z :=
  match n with Fin z => Some z | NaN => None end.

(** The handlers only bind the literals 'left' and 'right' here. *)
Definition sqlDir (v : value) : option dir :=
  match v with
  | VStr s => if String.eqb s "left" then Some left_
              else if String.eqb s "right" then Some right_ else None
  | _ => None
  end.

Definition swipe_where (p1 p2 : option Z) (p3 : option dir) (r : swipe_row) : bool :=
  int_is (swiper_id r) p1 && int_is (target_id r) p2 && dir_is (sw_direction r) p3.

Definition pair_where (u1 u2 : Z) (m : match_row) : bool :=
  (user1_id m =? u1) && (user2_id m =? u2).

Definition member_where (p1 p2 p3 : option Z) (m : match_row) : bool :=
  int_is (m_id m) p1 && (int_is (user1_id m) p2 || int_is (user2_id m) p3).

(** Modelled from the spec: the store behind [db.getQuery], whose module
    [./classes/database.js] and schema are missing from the sources; a
    relational store that holds what was committed and assigns increasing
    ids and non-decreasing timestamps, read through the SQL text of each
    statement of [index.js].  [exec d q] is the result of statement [q] on
    store [d], [None] when the store rejects it (the promise of [getQuery]
    is rejected), and the store afterwards.  An absent or non-integer
    parameter is rejected by an INSERT and matches no row in a WHERE. *)
Definition exec (d : db) (q : query) : option result * db :=
  match q with
  | InsertSwipe p1 p2 p3 =>
      match sqlInt p1, sqlInt p2, sqlDir p3 with
      | Some a, Some b, Some c => (Some (OkPacket (next_swipe d)), add_swipe d a b c)
      | _, _, _ => (None, d)
      end
  | SelectSwipe p1 p2 p3 =>
      (Some (Rows (firstn 1 (map sw_id
         (filter (swipe_where (sqlInt p1) (sqlInt p2) (sqlDir p3)) (swipes d))))), d)
  | SelectMatchPair p1 p2 =>
      match sqlNumber p1, sqlNumber p2 with
      | Some u1, Some u2 =>
          (Some (Rows (firstn 1 (map m_id (filter (pair_where u1 u2) (matches d))))), d)
      | _, _ => (None, d)
      end
  | InsertMatch p1 p2 =>
      match sqlNumber p1, sqlNumber p2 with
      | Some u1, Some u2 =>
          if unique_pair_key pf && existsb (pair_where u1 u2) (matches d)
          then (None, d)
          else (Some (OkPacket (next_match d)), add_match d u1 u2)
      | _, _ => (None, d)
      end
  | SelectMatchMember p1 p2 p3 =>
      (Some (Rows (firstn 1 (map m_id
         (filter (member_where (sqlInt p1) (sqlInt p2) (sqlInt p3)) (matches d))))), d)
  | SelectMessages p1 =>
      (Some (MessageRows (map out_of (order_by_sent_at pf
         (filter (fun m => int_is (match_id m) (sqlInt p1)) (messages d))))), d)
  | InsertMessage p1 p2 p3 =>
      match sqlInt p1, sqlInt p2 with
      | Some m, Some s => (Some (OkPacket (next_message d)), add_message d m s p3)
      | _, _ => (None, d)
      end
  | DeletePhotos _ => (Some (OkPacket 0), d)
  | DeleteSwipes p1 p2 =>
      (Some (OkPacket 0),
       set_swipes d (filter (fun r => negb (int_is (swiper_id r) (sqlInt p1)
                                           || int_is (target_id r) (sqlInt p2)))
                            (swipes d)))
  | DeleteMessages p1 =>
      (Some (OkPacket 0),
       set_messages d (filter (fun m => negb (int_is (sender_id m) (sqlInt p1)))
                              (messages d)))
  | DeleteMatches p1 p2 =>
      (Some (OkPacket 0),
       set_matches d (filter (fun m => negb (int_is (user1_id m) (sqlInt p1)
                                            || int_is (user2_id m) (sqlInt p2)))
                             (matches d)))
  | DeleteUser _ => (Some (OkPacket 0), d)
  end.

(** ** The helpers and handlers of [index.js] *)

(** [l.length] used as a condition, and [l.length > 0] *)
Definition has_rows (l : list Z) : bool := negb (Nat.eqb (List.length l) 0).

(** [async function userInMatch(matchId, userId)] *)
Definition userInMatch (matchId userId : value) : prog bool :=
  rows <- getQuery (SelectMatchMember matchId userId userId) ;;
  Ret (has_rows (rows_of rows)).

Definition json200 (b : body) : response := mkResponse 200 b.

(** [app.post('/swipe', ...)], the body of its [try] *)
Definition post_swipe (swiperId targetId direction : value) : prog response :=
  if negb (truthy swiperId) || negb (truthy targetId)
     || negb (includes ["left"; "right"] direction)
  then Ret (mkResponse 400
              (Message "swiperId, targetId en geldige direction zijn vereist."))
  else if num_strict_eq (Number swiperId) (Number targetId)
  then Ret (mkResponse 400 (Message "Je kan niet op jezelf swipen."))
  else
    _ <- getQuery (InsertSwipe swiperId targetId direction) ;;
    if is_string direction "right" then
      reverse <- getQuery (SelectSwipe targetId swiperId (VStr "right")) ;;
      if has_rows (rows_of reverse) then
        let (u1, u2) := orderPair swiperId targetId in
        exists_ <- getQuery (SelectMatchPair u1 u2) ;;
        if negb (has_rows (rows_of exists_)) then
          insert <- getQuery (InsertMatch u1 u2) ;;
          Ret (json200 (SwipeBody "Swipe opgeslagen — MATCH!" true
                                  (insertId_of insert)))
        else
          Ret (json200 (SwipeBody "Swipe opgeslagen — match bestond al." true None))
      else Ret (json200 (SwipeBody "Swipe opgeslagen" false None))
    else Ret (json200 (SwipeBody "Swipe opgeslagen" false None)).

(** its [catch] *)
Definition post_swipe_catch : response :=
  mkResponse 500 (Message "Serverfout bij swipen.").

(** [app.get('/messages', ...)] *)
Definition get_messages (matchId userId : value) : prog response :=
  if negb (truthy matchId) || negb (truthy userId)
  then Ret (mkResponse 400 (Message "matchId en userId zijn vereist."))
  else
    allowed <- userInMatch matchId userId ;;
    if negb allowed
    then Ret (mkResponse 403 (Message "Geen toegang tot deze match."))
    else
      rows <- getQuery (SelectMessages matchId) ;;
      Ret (json200 (MessageList (message_rows_of rows))).

Definition get_messages_catch : response :=
  mkResponse 500 (Message "Serverfout bij berichten ophalen.").

(** [app.post('/messages', ...)] *)
Definition post_messages (matchId senderId content_ : value) : prog response :=
  if negb (truthy matchId) || negb (truthy senderId) || negb (truthy content_)
  then Ret (mkResponse 400 (Message "matchId, senderId en content zijn vereist."))
  else
    allowed <- userInMatch matchId senderId ;;
    if negb allowed
    then Ret (mkResponse 403 (Message "Geen toegang tot deze match."))
    else
      result_ <- getQuery (InsertMessage matchId senderId content_) ;;
      Ret (mkResponse 201 (SentBody "Bericht verstuurd." (insertId_of result_))).

Definition post_messages_catch : response :=
  mkResponse 500 (Message "Serverfout bij bericht verzenden.").

(** [app.delete('/admin/user/:id', ...)] *)
Definition delete_admin_user (userId : value) : prog response :=
  if negb (truthy userId)
  then Ret (mkResponse 400 (Message "userId ontbreekt."))
  else
    _ <- getQuery (DeletePhotos userId) ;;
    _ <- getQuery (DeleteSwipes userId userId) ;;
    _ <- getQuery (DeleteMessages userId) ;;
    _ <- getQuery (DeleteMatches userId userId) ;;
    _ <- getQuery (DeleteUser userId) ;;
    Ret (json200 (Message "Gebruiker verwijderd.")).

Definition delete_admin_user_catch : response :=
  mkResponse 500 (Message "Serverfout bij verwijderen gebruiker.").

(** ** Running one request alone *)

(** [eval p d]: the value [p] returns on store [d], [None] when a statement
    is rejected and the exception leaves [p]; the store afterwards; and the
    statements sent, in order. *)
Fixpoint eval {A : Type} (p : prog A) (d : db) : option A * db * list query :=
  match p with
  | Ret a => (Some a, d, [])
  | Await q k =>
      match exec d q with
      | (Some r, d') =>
          let '(a, d'', t) := eval (k r) d' in (a, d'', q :: t)
      | (None, d') => (None, d', [q])
      end
  end.

(** [try { p } catch (err) { return catch }] *)
Definition run (catch : response) (p : prog response) (d : db)
  : response * db * list query :=
  match eval p d with
  | (Some r, d', t) => (r, d', t)
  | (None, d', t) => (catch, d', t)
  end.

Definition response_of (x : response * db * list query) : response := fst (fst x).
Definition db_of (x : response * db * list query) : db := snd (fst x).
Definition trace_of (x : response * db * list query) : list query := snd x.

(** ** Running concurrent requests *)

(** A request in flight: the rest of its handler and its [catch]. *)
Record task : Type := mkTask { code : prog response; on_error : response }.

(** One turn of a task: up to and including its next statement. *)
Definition step_task (t : task) (d : db) : task * db :=
  match code t with
  | Ret _ => (t, d)
  | Await q k =>
      match exec d q with
      | (Some r, d') => (mkTask (k r) (on_error t), d')
      | (None, d') => (mkTask (Ret (on_error t)) (on_error t), d')
      end
  end.

Fixpoint step_nth (i : nat) (pool : list task) (d : db) : list task * db :=
  match pool, i with
  | [], _ => ([], d)
  | t :: rest, O => let (t', d') := step_task t d in (t' :: rest, d')
  | t :: rest, S j => let (rest', d') := step_nth j rest d in (t :: rest', d')
  end.

(** [run_schedule sched pool d]: the tasks take turns in the order [sched]. *)
Fixpoint run_schedule (sched : list nat) (pool : list task) (d : db)
  : list task * db :=
  match sched with
  | [] => (pool, d)
  | i :: rest => let (pool', d') := step_nth i pool d in run_schedule rest pool' d'
  end.

Definition answer (t : task) : option response :=
  match code t with Ret r => Some r | Await _ _ => None end.

End Core.

Arguments eval pf {A} p d.

(** ** Platforms to evaluate on *)

Definition digit_of (c : Ascii.ascii) : option Z :=
  let n := Z.of_nat (Ascii.nat_of_ascii c) in
  if (48 <=? n) && (n <=? 57) then Some (n - 48) else None.

Fixpoint digits (s : string) (acc : Z) : option Z :=
  match s with
  | EmptyString => Some acc
  | String c r =>
      match digit_of c with
      | Some k => digits r (10 * acc + k)
      | None => None
      end
  end.

(** A decimal integer literal: digits, with an optional minus sign. *)
Definition int_literal (s : string) : option Z :=
  match s with
  | EmptyString => None
  | String c r =>
      if Ascii.eqb c "-"%char
      then match r with
           | EmptyString => None
           | _ => option_map Z.opp (digits r 0)
           end
      else digits s 0
  end.

(** Insertion sort with the comparison [le]; an element goes in front of
    the first one it is [le] to. *)
Section Sorting.

Variable le : message_row -> message_row -> bool.

Fixpoint insert_row (x : message_row) (l : list message_row) : list message_row :=
  match l with
  | [] => [x]
  | y :: r => if le x y then x :: l else y :: insert_row x r
  end.

Definition sort_rows (l : list message_row) : list message_row :=
  fold_right insert_row [] l.

End Sorting.

(** Rows with equal [sent_at] stay in table order. *)
Definition le_sent_at (x y : message_row) : bool := sent_at x <=? sent_at y.

(** Rows with equal [sent_at] come out with the larger id first. *)
Definition le_sent_at_id_desc (x y : message_row) : bool :=
  (sent_at x <? sent_at y) || ((sent_at x =? sent_at y) && (msg_id y <=? msg_id x)).

Definition js_number_of_string (s : string) : number :=
  match s with
  | EmptyString => Fin 0
  | _ => match int_literal s with Some z => Fin z | None => NaN end
  end.

(** Strings are read as decimal integer literals, [matches] has no unique
    key, and ORDER BY is stable. *)
Definition plain : platform :=
  mkPlatform js_number_of_string int_literal false (sort_rows le_sent_at).

(** The same with a unique key on (user1_id, user2_id). *)
Definition keyed : platform :=
  mkPlatform js_number_of_string int_literal true (sort_rows le_sent_at).

(** The same as [plain] with an ORDER BY that is not stable. *)
Definition unstable : platform :=
  mkPlatform js_number_of_string int_literal false (sort_rows le_sent_at_id_desc).

(** The same as [plain] with a store that reads a string that is no
    integer literal as 0 instead of rejecting it. *)
Definition lenient_int (s : string) : option Z :=
  match int_literal s with Some z => Some z | None => Some 0 end.

Definition lenient : platform :=
  mkPlatform js_number_of_string lenient_int false (sort_rows le_sent_at).

(** ** Notions used by the statements *)

Definition fields_required : response :=
  mkResponse 400 (Message "swiperId, targetId en geldige direction zijn vereist.").

Definition no_self_swipe : response :=
  mkResponse 400 (Message "Je kan niet op jezelf swipen.").

(** [v] is a usable id: present, and read as the integer [a] both by
    [Number] and by the store. *)
Definition user_id (pf : platform) (v : value) (a : Z) : Prop :=
  truthy v = true /\ Number pf v = Fin a /\ sqlInt pf v = Some a.

(** Has [target] swiped right on [swiper]?  The ledger holds an event with
    swiper = [target], target = [swiper] and direction right. *)
Definition hasReciprocalRight (d : db) (swiper target : Z) : bool :=
  existsb (fun r => (swiper_id r =? target) && (target_id r =? swiper)
                    && dir_eqb (sw_direction r) right_) (swipes d).

(** The id of the first row of [matches] for the pair, if there is one. *)
Definition find_match (d : db) (u1 u2 : Z) : option Z :=
  hd_error (map m_id (filter (pair_where u1 u2) (matches d))).

Definition swiped : body := SwipeBody "Swipe opgeslagen" false None.
Definition new_match (i : option Z) : body :=
  SwipeBody "Swipe opgeslagen — MATCH!" true i.
Definition already_matched : body :=
  SwipeBody "Swipe opgeslagen — match bestond al." true None.

Definition right_trace (s t : value) (u1 u2 : Z) (n : nat) : list query :=
  firstn n [InsertSwipe s t (VStr "right"); SelectSwipe t s (VStr "right");
            SelectMatchPair (Fin u1) (Fin u2); InsertMatch (Fin u1) (Fin u2)].

(** The outcomes the specification names for [onSwipe]. *)
Inductive SwipeOutcome : Type :=
  | NotRight
  | NoReciprocity
  | AlreadyMatched (matchId : Z)
  | NewMatch (matchId : Z).

(** The resolver as the specification words it, on the store before the
    request: not right; no reverse right swipe in the ledger; a match of
    the canonical pair exists; or one is created, with the next key. *)
Definition onSwipe (d : db) (a b : Z) (c : dir) : SwipeOutcome :=
  match c with
  | left_ => NotRight
  | right_ =>
      if hasReciprocalRight d a b then
        match find_match d (Z.min a b) (Z.max a b) with
        | Some i => AlreadyMatched i
        | None => NewMatch (next_match d)
        end
      else NoReciprocity
  end.

(** The body [POST /swipe] sends for each outcome. *)
Definition body_of_outcome (o : SwipeOutcome) : body :=
  match o with
  | NotRight | NoReciprocity => SwipeBody "Swipe opgeslagen" false None
  | AlreadyMatched _ => SwipeBody "Swipe opgeslagen — match bestond al." true None
  | NewMatch i => SwipeBody "Swipe opgeslagen — MATCH!" true (Some i)
  end.

Definition matched_of (r : response) : option bool :=
  match json r with SwipeBody _ m _ => Some m | _ => None end.

Definition matchId_of (r : response) : option Z :=
  match json r with SwipeBody _ _ i => i | _ => None end.

Definition swipe (pf : platform) (a b : Z) (dir : string) (d : db)
  : response * db * list query :=
  run pf post_swipe_catch (post_swipe pf (VNum a) (VNum b) (VStr dir)) d.

Definition swipe_values (pf : platform) (s t dir : value) (d : db)
  : response * db * list query :=
  run pf post_swipe_catch (post_swipe pf s t dir) d.

(** The guard as the specification words it: a row of [matches] has this
    id, and the user is one of its two participants. *)
Definition authorize (d : db) (matchId userId : Z) : Prop :=
  exists m, In m (matches d) /\ m_id m = matchId
            /\ (user1_id m = userId \/ user2_id m = userId).

Definition is_member (pf : platform) (d : db) (matchId userId : value) : bool :=
  existsb (member_where (sqlInt pf matchId) (sqlInt pf userId) (sqlInt pf userId))
          (matches d).

Definition forbidden : response :=
  mkResponse 403 (Message "Geen toegang tot deze match.").

Definition of_match (mi : Z) (m : message_row) : bool := match_id m =? mi.

(** The order the specification asks of the list: by [sent_at], and by id
    among messages with the same [sent_at]. *)
Definition by_sent_at_then_id (x y : message_out) : Prop :=
  o_sent_at x < o_sent_at y \/ (o_sent_at x = o_sent_at y /\ o_id x <= o_id y).

(** The conversation of the scenario: 5 and 9 match, 5 posts "hi", then 9
    posts "hello", both within one tick of the store's clock. *)
Definition chat (pf : platform) : db :=
  let d1 := db_of (swipe pf 5 9 "right" empty_db) in
  let d2 := db_of (swipe pf 9 5 "right" d1) in
  let d3 := db_of (run pf post_messages_catch
                       (post_messages (VNum 1) (VNum 5) (VStr "hi")) d2) in
  db_of (run pf post_messages_catch
             (post_messages (VNum 1) (VNum 9) (VStr "hello")) d3).

(** The same conversation with the second message one tick later. *)
Definition chat_spaced (pf : platform) : db :=
  let d1 := db_of (swipe pf 5 9 "right" empty_db) in
  let d2 := db_of (swipe pf 9 5 "right" d1) in
  let d3 := db_of (run pf post_messages_catch
                       (post_messages (VNum 1) (VNum 5) (VStr "hi")) d2) in
  db_of (run pf post_messages_catch
             (post_messages (VNum 1) (VNum 9) (VStr "hello"))
             (advance 1 d3)).

Definition pair_of (m : match_row) : Z * Z := (user1_id m, user2_id m).

(** The invariant of [matches]: no two rows with the same
    (user1_id, user2_id), and every row has the smaller id first. *)
Definition pairs_ok (l : list match_row) : Prop :=
  NoDup (map pair_of l) /\ Forall (fun m => user1_id m < user2_id m) l.

Definition match_invariant (d : db) : Prop := pairs_ok (matches d).

(** The rows of [matches] that join users [a] and [b], in either order. *)
Definition rows_of_pair (d : db) (a b : Z) : list match_row :=
  filter (fun m => pair_where a b m || pair_where b a m) (matches d).

Definition at_most_one_match (d : db) : Prop :=
  forall a b, (List.length (rows_of_pair d a b) <= 1)%nat.

(** The store after a program, whatever it answered. *)
Definition db_after (pf : platform) {A : Type} (p : prog A) (d : db) : db :=
  snd (fst (eval pf p d)).

(** The store once 5 and 9 have swiped right on each other and matched. *)
Definition matched_5_9 : db :=
  mkDb [mkSwipe 1 5 9 right_; mkSwipe 2 9 5 right_] [mkMatch 1 5 9] [] 3 2 1 0.

Definition swipe_task (pf : platform) (a b : Z) (dir : string) : task :=
  mkTask (post_swipe pf (VNum a) (VNum b) (VStr dir)) post_swipe_catch.

(** The two requests take turns, one statement each. *)
Definition alternate : list nat := [0; 1; 0; 1; 0; 1; 0; 1]%nat.

(** One request after the other. *)
Definition one_by_one : list nat := [0; 0; 0; 0; 1; 1; 1; 1]%nat.

(** ** Further notions: the message log, deletion and the keys *)

Definition fields_required_get : response :=
  mkResponse 400 (Message "matchId en userId zijn vereist.").

Definition fields_required_post : response :=
  mkResponse 400 (Message "matchId, senderId en content zijn vereist.").

Definition sent (i : Z) : response :=
  mkResponse 201 (SentBody "Bericht verstuurd." (Some i)).

Definition user_deleted : response :=
  mkResponse 200 (Message "Gebruiker verwijderd.").

(** Every message was sent by a participant of its match. *)
Definition senders_participate (d : db) : Prop :=
  Forall (fun m => authorize d (match_id m) (sender_id m)) (messages d).

(** The keys of [matches] handed out so far are below the next one. *)
Definition match_ids_fresh (d : db) : Prop :=
  Forall (fun m => m_id m < next_match d) (matches d).

Definition swipe_mentions (x : Z) (r : swipe_row) : Prop :=
  swiper_id r = x \/ target_id r = x.

Definition match_mentions (x : Z) (m : match_row) : Prop :=
  user1_id m = x \/ user2_id m = x.

(** The messages of match [mi] as [GET /messages] lists them. *)
Definition listed (pf : platform) (d : db) (matchId userId : value)
  : list message_out :=
  match json (response_of (run pf get_messages_catch
                               (get_messages matchId userId) d)) with
  | MessageList rows => rows
  | _ => []
  end.

(** What a run of [POST /swipe] can answer and leave behind, whatever the
    request: nothing sent; the INSERT of the swipe rejected; the swipe
    recorded and no match made; or the swipe recorded and one match row
    appended. *)
Inductive swipe_run (catch : response) (d : db)
  : response -> db -> list query -> Prop :=
  | sr_rejected (r : response) :
      status r = 400 -> swipe_run catch d r d []
  | sr_not_recorded (q : query) :
      swipe_run catch d catch d [q]
  | sr_recorded (a b : Z) (c : dir) (r : response) (t : list query) :
      r = json200 swiped \/ r = json200 already_matched \/ r = catch ->
      swipe_run catch d r (add_swipe d a b c) t
  | sr_matched (a b u1 u2 : Z) (t : list query) :
      u1 < u2 -> existsb (pair_where u1 u2) (matches d) = false ->
      swipe_run catch d (json200 (new_match (Some (next_match d))))
                (add_match (add_swipe d a b right_) u1 u2) t.

(** The five statements of [DELETE /admin/user/:id], in order. *)
Definition delete_trace (u : value) : list query :=
  [DeletePhotos u; DeleteSwipes u u; DeleteMessages u; DeleteMatches u u;
   DeleteUser u].

(** No two rows of [matches] have the same key. *)
Definition match_ids_distinct (d : db) : Prop := NoDup (map m_id (matches d)).

(** ** Statements built from the request: [GET /profiles] and
    [PUT /update-profile] *)

(** A bound parameter: a value of the request as it came, the result of
    [Number(...)], or the text of a template literal. *)
Inductive param : Type :=
  | PValue (v : value)
  | PNumber (n : number)
  | PText (s : string).

(** What is handed to [db.getQuery(sql, params)]. *)
Record statement : Type := mkStatement { sql : string; params : list param }.

Definition nl : string := String (ascii_of_nat 10) EmptyString.

(** [`${v}`] *)
Definition ToString (v : value) : string :=
  match v with
  | VUndefined => "undefined"
  | VNull => "null"
  | VBool b => if b then "true" else "false"
  | VNum n => NilZero.string_of_int (Z.to_int n)
  | VStr s => s
  end.

(** [sql += frag; params.push(p)] *)
Definition add_filter (frag : string) (p : param) (st : statement) : statement :=
  mkStatement (sql st ++ frag) (params st ++ [p])%list.

(** The template literal [sql] starts from. *)
Definition profiles_base : string :=
  "" ++ nl ++
  "      SELECT " ++ nl ++
  "        u.id, u.username, u.bio, u.gender," ++ nl ++
  "        DATE_FORMAT(u.birthdate, '%Y-%m-%d') AS birthdate," ++ nl ++
  "        u.location," ++ nl ++
  "        (SELECT photo_url FROM user_photos p WHERE p.user_id = u.id LIMIT 1) AS photo" ++ nl ++
  "      FROM users u" ++ nl ++
  "      WHERE u.id <> ?" ++ nl ++
  "    ".

(** The statement of [GET /profiles], after [userId] was found present. *)
Definition profiles_statement (pf : platform)
           (userId gender min_age max_age location : value) : statement :=
  let st := mkStatement profiles_base [PValue userId] in
  let st := if truthy gender
            then add_filter " AND u.gender = ?" (PValue gender) st else st in
  let st := if truthy min_age
            then add_filter " AND TIMESTAMPDIFF(YEAR, u.birthdate, CURDATE()) >= ?"
                            (PNumber (Number pf min_age)) st
            else st in
  let st := if truthy max_age
            then add_filter " AND TIMESTAMPDIFF(YEAR, u.birthdate, CURDATE()) <= ?"
                            (PNumber (Number pf max_age)) st
            else st in
  let st := if truthy location
            then add_filter " AND u.location LIKE ?"
                            (PText ("%" ++ ToString location ++ "%")) st
            else st in
  let st := add_filter
              " AND u.id NOT IN (SELECT target_id FROM swipes WHERE swiper_id = ?)"
              (PValue userId) st in
  mkStatement (sql st ++ " ORDER BY u.created_at DESC LIMIT 50") (params st).

(** [app.get('/profiles', ...)] up to its [db.getQuery]: the 400, or the
    statement it sends. *)
Definition get_profiles (pf : platform)
           (userId gender min_age max_age location : value)
  : response + statement :=
  if negb (truthy userId)
  then inl (mkResponse 400 (Message "userId is vereist."))
  else inr (profiles_statement pf userId gender min_age max_age location).

(** [v !== undefined] *)
Definition defined (v : value) : bool :=
  match v with VUndefined => false | _ => true end.

(** [if (v !== undefined) { updates.push(column); params.push(v); }] *)
Definition set_column (column : string) (v : value)
           (st : list string * list param) : list string * list param :=
  if defined v then ((fst st ++ [column])%list, (snd st ++ [PValue v])%list) else st.

(** The [updates] and [params] of [PUT /update-profile] before [userId] is
    pushed. *)
Definition profile_updates (username bio gender birthdate location : value)
  : list string * list param :=
  let st := ([], []) in
  let st := set_column "username = ?" username st in
  let st := set_column "bio = ?" bio st in
  let st := set_column "gender = ?" gender st in
  let st := set_column "birthdate = ?" birthdate st in
  set_column "location = ?" location st.

(** [app.put('/update-profile', ...)] up to its [db.getQuery]: a 400, or
    the statement it sends. *)
Definition put_update_profile
           (userId username bio gender birthdate location : value)
  : response + statement :=
  if negb (truthy userId)
  then inl (mkResponse 400 (Message "userId is vereist."))
  else
    let (updates, params_) :=
      profile_updates username bio gender birthdate location in
    if Nat.eqb (List.length updates) 0
    then inl (mkResponse 400 (Message "Geen velden om te updaten."))
    else inr (mkStatement
                ("UPDATE users SET " ++ String.concat ", " updates
                 ++ " WHERE id = ?")
                (params_ ++ [PValue userId])%list).

(** The number of [?] placeholders of a statement text. *)
Fixpoint placeholders (s : string) : nat :=
  match s with
  | EmptyString => O
  | String c r => ((if Ascii.eqb c "?"%char then 1 else 0) + placeholders r)%nat
  end.

(** ** Accounts: [POST /register], [POST /login], [POST /admin/ban] and
    [POST /admin/verify]

    These handlers only use the table [users].  Their statements are run
    one after the other on a store of their own, passed along explicitly;
    a rejected statement or a throwing [bcrypt] call is [None] and is
    answered by the handler's [catch]. *)

Module Accounts.

Record user_row : Type := mkUser
  { u_id : Z;
    email : string;
    password_hash : string;
    username : string;
    bio : value;
    gender : value;
    birthdate : value;
    location : value;
    banned : bool;
    is_admin : bool;
    verified : bool }.

Record store : Type := mkStore { users : list user_row; next_user : Z }.

(** What the sources leave to [bcrypt] and to the schema of [users]. *)
Record env : Type := mkEnv
  { (* the text a column holds after a value was bound to it; [None] when
       the store rejects the value *)
    sql_text : value -> option string;
    (* [column = ?] on text, under the collation of the column *)
    text_eq : string -> string -> bool;
    (* [await bcrypt.hash(password, 10)]; [None] when it throws *)
    bcrypt_hash : value -> option string;
    (* [await bcrypt.compare(password, hash)]; [None] when it throws *)
    bcrypt_compare : value -> string -> option bool;
    (* the defaults of the columns the INSERT does not name *)
    default_banned : bool;
    default_is_admin : bool;
    default_verified : bool }.

(** A response: the status, [message], and the keys [userId] and
    [is_admin] when set. *)
Record reply : Type := mkReply
  { http : Z; message : string; userId : option Z; admin : option bool }.

Definition say (h : Z) (m : string) : reply := mkReply h m None None.

Section Handlers.

Variable pf : platform.
Variable ev : env.

Definition text_is (col : string) (p : option string) : bool :=
  match p with Some s => text_eq ev col s | None => false end.

(** [v || null] *)
Definition or_null (v : value) : value := if truthy v then v else VNull.

(** SELECT id FROM users WHERE email = ? OR username = ? *)
Definition select_taken (p1 p2 : value) (s : store) : list Z :=
  map u_id (filter (fun r => text_is (email r) (sql_text ev p1)
                             || text_is (username r) (sql_text ev p2))
                   (users s)).

(** INSERT INTO users (email, password_hash, username, bio, gender,
    birthdate, location) VALUES (?, ?, ?, ?, ?, ?, ?) *)
Definition insert_user (p1 : value) (p2 : string) (p3 p4 p5 p6 p7 : value)
           (s : store) : option (Z * store) :=
  match sql_text ev p1, sql_text ev p3 with
  | Some e, Some u =>
      Some (next_user s,
            mkStore (users s ++ [mkUser (next_user s) e p2 u p4 p5 p6 p7
                                        (default_banned ev) (default_is_admin ev)
                                        (default_verified ev)])
                    (next_user s + 1))
  | _, _ => None
  end.

(** SELECT id, password_hash, banned, is_admin FROM users
    WHERE email = ? LIMIT 1 *)
Definition select_login (p1 : value) (s : store) : option user_row :=
  find (fun r => text_is (email r) (sql_text ev p1)) (users s).

Definition set_banned (r : user_row) : user_row :=
  mkUser (u_id r) (email r) (password_hash r) (username r) (bio r) (gender r)
         (birthdate r) (location r) true (is_admin r) (verified r).

Definition set_verified (r : user_row) : user_row :=
  mkUser (u_id r) (email r) (password_hash r) (username r) (bio r) (gender r)
         (birthdate r) (location r) (banned r) (is_admin r) true.

(** UPDATE users SET banned = TRUE WHERE id = ? *)
Definition update_banned (p1 : value) (s : store) : store :=
  mkStore (map (fun r => if int_is (u_id r) (sqlInt pf p1) then set_banned r else r)
               (users s))
          (next_user s).

(** UPDATE users SET verified = TRUE WHERE id = ? *)
Definition update_verified (p1 : value) (s : store) : store :=
  mkStore (map (fun r => if int_is (u_id r) (sqlInt pf p1) then set_verified r else r)
               (users s))
          (next_user s).

(** [app.post('/register', ...)] *)
Definition register (email_ username_ password bio_ gender_ birthdate_
                     location_ : value) (s : store) : reply * store :=
  if negb (truthy email_) || negb (truthy username_) || negb (truthy password)
  then (say 400 "Email, username en password zijn verplicht.", s)
  else if has_rows (select_taken email_ username_ s)
  then (say 409 "Email of username is al in gebruik.", s)
  else
    match bcrypt_hash ev password with
    | None => (say 500 "Serverfout bij registreren.", s)
    | Some hash =>
        match insert_user email_ hash username_ (or_null bio_) (or_null gender_)
                          (or_null birthdate_) (or_null location_) s with
        | None => (say 500 "Serverfout bij registreren.", s)
        | Some (insertId, s') =>
            (mkReply 201 "Registratie gelukt" (Some insertId) None, s')
        end
    end.

(** [app.post('/login', ...)]: the response and what [req.session.userId]
    is set to, if it is set.  The handler only reads [users]. *)
Definition login (email_ password : value) (s : store) : reply * option Z :=
  if negb (truthy email_) || negb (truthy password)
  then (say 400 "Email en password zijn verplicht.", None)
  else
    match select_login email_ s with
    | None => (say 401 "Ongeldige login.", None)
    | Some user =>
        match bcrypt_compare ev password (password_hash user) with
        | None => (say 500 "Serverfout bij inloggen.", None)
        | Some ok =>
            if negb ok then (say 401 "Ongeldige login.", None)
            else if banned user
            then (say 403 "Dit account is geblokkeerd.", None)
            else (mkReply 200 "Login ok" (Some (u_id user)) (Some (is_admin user)),
                  Some (u_id user))
        end
    end.

(** [app.post('/admin/ban', ...)] *)
Definition admin_ban (userId_ : value) (s : store) : reply * store :=
  if negb (truthy userId_) then (say 400 "userId is vereist.", s)
  else (say 200 "Gebruiker geband.", update_banned userId_ s).

(** [app.post('/admin/verify', ...)] *)
Definition admin_verify (userId_ : value) (s : store) : reply * store :=
  if negb (truthy userId_) then (say 400 "userId is vereist.", s)
  else (say 200 "Gebruiker geverifieerd.", update_verified userId_ s).

End Handlers.

(** No two accounts with the same email or the same username: a later row
    is equal to no earlier one, under the collation. *)
Definition distinct_accounts (ev : env) (s : store) : Prop :=
  ForallOrdPairs
    (fun old new => text_eq ev (email old) (email new) = false
                    /\ text_eq ev (username old) (username new) = false)
    (users s).

(** An environment to evaluate on: text is kept and compared as it is, the
    hash of a password is the password behind a tag, and the column
    defaults are false. *)
Definition text_only (v : value) : option string :=
  match v with VStr s => Some s | _ => None end.

Definition tagged_hash (v : value) : option string :=
  match v with VStr s => Some ("$2b$10$" ++ s) | _ => None end.

Definition tagged_compare (v : value) (h : string) : option bool :=
  match v with VStr s => Some (String.eqb ("$2b$10$" ++ s) h) | _ => None end.

Definition simple : env :=
  mkEnv text_only String.eqb tagged_hash tagged_compare false false false.

End Accounts.

(** ** [GET /matches] *)

(** CASE WHEN m.user1_id = ? THEN m.user2_id ELSE m.user1_id END *)
Definition other_id (p : option Z) (m : match_row) : Z :=
  if int_is (user1_id m) p then user2_id m else user1_id m.

(** A row of the answer: the match, its [other_id], and the row of [users]
    joined on it (the answer takes [username] and [location] from that
    row). *)
Definition match_entry : Type := (match_row * Z * Accounts.user_row)%type.

(** SELECT ... FROM matches m JOIN users u ON u.id = CASE ... END
    WHERE m.user1_id = ? OR m.user2_id = ? ORDER BY m.matched_at DESC,
    with [order] the row order the store gives for the ORDER BY. *)
Definition select_matches (pf : platform)
           (order : list match_row -> list match_row)
           (p1 p2 p3 p4 : value) (d : db) (s : Accounts.store)
  : list match_entry :=
  flat_map
    (fun m => map (fun u => (m, other_id (sqlInt pf p1) m, u))
                  (filter (fun u => Accounts.u_id u =? other_id (sqlInt pf p2) m)
                          (Accounts.users s)))
    (order (filter (fun m => int_is (user1_id m) (sqlInt pf p3)
                             || int_is (user2_id m) (sqlInt pf p4))
                   (matches d))).

(** [app.get('/matches', ...)]: the 400, or the rows it answers with. *)
Definition get_matches (pf : platform)
           (order : list match_row -> list match_row)
           (userId : value) (d : db) (s : Accounts.store)
  : response + list match_entry :=
  if negb (truthy userId)
  then inl (mkResponse 400 (Message "userId is vereist."))
  else inr (select_matches pf order userId userId userId userId d s).

(** * Properties *)

(** ** Pair canonicalization *)

Lemma orderPair_min_max (pf : platform) (a b : value) (x y : Z) :
  Number pf a = Fin x -> Number pf b = Fin y ->
  orderPair pf a b = (Fin (Z.min x y), Fin (Z.max x y)).
Proof.
  intros Ha Hb. unfold orderPair. rewrite Ha, Hb. simpl.
  destruct (Z.ltb_spec x y) as [Hxy | Hxy].
  - rewrite Z.min_l, Z.max_r by lia. reflexivity.
  - rewrite Z.min_r, Z.max_l by lia. reflexivity.
Qed.

(** C4. [orderPair] does not depend on the order of its arguments: for two
    values that denote distinct ids [x] and [y], [orderPair a b] equals
    [orderPair b a], its first component is the smaller id and its second
    the larger one, so the first is strictly below the second. *)
Theorem orderPair_canonical (pf : platform) (a b : value) (x y : Z) :
  Number pf a = Fin x -> Number pf b = Fin y -> x <> y ->
  orderPair pf a b = orderPair pf b a
  /\ orderPair pf a b = (Fin (Z.min x y), Fin (Z.max x y))
  /\ Z.min x y < Z.max x y.
Proof.
  intros Ha Hb Hne. unfold orderPair. rewrite Ha, Hb. simpl.
  destruct (Z.ltb_spec x y) as [Hxy | Hxy], (Z.ltb_spec y x) as [Hyx | Hyx];
    try lia.
  - rewrite Z.min_l, Z.max_r by lia. repeat split; lia.
  - rewrite Z.min_r, Z.max_l by lia. repeat split; lia.
Qed.

Lemma orderPair_canonical_witness :
  orderPair plain (VNum 5) (VNum 9) = orderPair plain (VNum 9) (VNum 5)
  /\ orderPair plain (VNum 5) (VNum 9) = (Fin 5, Fin 9)
  /\ 5 < 9.
Proof.
  apply (orderPair_canonical plain (VNum 5) (VNum 9) 5 9);
    [reflexivity | reflexivity | lia].
Defined.

(** ** Validation of [POST /swipe] *)

Lemma includes_left_right (v : value) :
  includes ["left"; "right"] v = true <-> v = VStr "left" \/ v = VStr "right".
Proof.
  split.
  - destruct v as [| | b | n | s]; simpl; try discriminate.
    destruct (String.eqb_spec s "left") as [-> | _]; [now left |].
    destruct (String.eqb_spec s "right") as [-> | _]; [now right |].
    discriminate.
  - intros [-> | ->]; reflexivity.
Qed.

Lemma eval_getQuery (pf : platform) (A : Type) (q : query)
      (k : result -> prog A) (d : db) :
  eval pf (r <- getQuery q ;; k r) d =
  match exec pf d q with
  | (Some r, d') => let '(a, d'', t) := eval pf (k r) d' in (a, d'', q :: t)
  | (None, d') => (None, d', [q])
  end.
Proof. reflexivity. Qed.

(** The statements of a request that got past validation start with the
    INSERT into [swipes]. *)
Lemma run_post_swipe_valid (pf : platform) (catch : response)
      (s t dir : value) (d : db) :
  truthy s = true -> truthy t = true -> includes ["left"; "right"] dir = true ->
  num_strict_eq (Number pf s) (Number pf t) = false ->
  exists rest, trace_of (run pf catch (post_swipe pf s t dir) d)
               = InsertSwipe s t dir :: rest.
Proof.
  intros Hs Ht Hd Hn. unfold run, post_swipe.
  rewrite Hs, Ht, Hd, Hn. cbn [negb orb].
  rewrite eval_getQuery.
  destruct (exec pf d (InsertSwipe s t dir)) as [[r |] d'].
  - destruct (eval pf _ d') as [[[r' |] d''] tr]; eexists; reflexivity.
  - eexists; reflexivity.
Qed.

(** C10. Presence is tested by truthiness: a [swiperId] or [targetId] equal
    to the number 0 is answered 400 as a missing field, with no statement
    sent; and the answer is this 400 exactly when one of the ids is falsy
    or [direction] is not exactly the string 'left' or 'right'. *)
Theorem post_swipe_presence (pf : platform) (catch : response)
        (s t dir : value) (d : db) :
  run pf catch (post_swipe pf (VNum 0) t dir) d = (fields_required, d, [])
  /\ run pf catch (post_swipe pf s (VNum 0) dir) d = (fields_required, d, [])
  /\ (run pf catch (post_swipe pf s t dir) d = (fields_required, d, [])
      <-> truthy s = false \/ truthy t = false
          \/ ~ (dir = VStr "left" \/ dir = VStr "right")).
Proof.
  split; [reflexivity |]. split.
  { unfold run, post_swipe. simpl (truthy (VNum 0)).
    rewrite orb_true_r. reflexivity. }
  split.
  - intros Hrun.
    destruct (truthy s) eqn:Hs; [| now left].
    destruct (truthy t) eqn:Ht; [| now right; left].
    right; right. intros Hdir. apply includes_left_right in Hdir.
    destruct (num_strict_eq (Number pf s) (Number pf t)) eqn:Hn.
    + unfold run, post_swipe in Hrun. rewrite Hs, Ht, Hdir, Hn in Hrun.
      discriminate Hrun.
    + destruct (run_post_swipe_valid pf catch s t dir d Hs Ht Hdir Hn)
        as [rest Hrest].
      rewrite Hrun in Hrest. discriminate Hrest.
  - intros H. unfold run, post_swipe.
    assert (Hc : negb (truthy s) || negb (truthy t)
                 || negb (includes ["left"; "right"] dir) = true).
    { destruct H as [-> | [-> | Hdir]]; [reflexivity | apply orb_true_iff; left; apply orb_true_r |].
      destruct (includes ["left"; "right"] dir) eqn:Hi.
      - exfalso. apply Hdir, includes_left_right, Hi.
      - apply orb_true_r. }
    rewrite Hc. reflexivity.
Qed.

(** C5, as amended. A self-swipe is answered 400 whatever the direction:
    when [Number] reads [swiperId] and [targetId] as the same number, the
    status is 400, the store is unchanged and no statement was sent, so no
    swipe is written and no match is created. *)
Theorem self_swipe_rejected (pf : platform) (catch : response)
        (s t dir : value) (x : Z) (d : db) :
  Number pf s = Fin x -> Number pf t = Fin x ->
  let r := run pf catch (post_swipe pf s t dir) d in
  status (response_of r) = 400 /\ db_of r = d /\ trace_of r = []
  /\ swipes (db_of r) = swipes d /\ matches (db_of r) = matches d.
Proof.
  intros Hs Ht. unfold run, post_swipe.
  destruct (negb (truthy s) || negb (truthy t)
            || negb (includes ["left"; "right"] dir)).
  - cbn. repeat split.
  - rewrite Hs, Ht. simpl. rewrite Z.eqb_refl. cbn. repeat split.
Qed.

Lemma self_swipe_rejected_witness :
  let r := run plain post_swipe_catch
               (post_swipe plain (VNum 3) (VNum 3) (VStr "right")) empty_db in
  status (response_of r) = 400 /\ db_of r = empty_db /\ trace_of r = []
  /\ swipes (db_of r) = swipes empty_db /\ matches (db_of r) = matches empty_db.
Proof.
  apply (self_swipe_rejected plain post_swipe_catch (VNum 3) (VNum 3)
           (VStr "right") 3 empty_db); reflexivity.
Defined.

(** Two equal values that are no number get past both tests, NaN being
    equal to nothing: the INSERT of the swipe is the first statement sent. *)
Lemma self_swipe_nan_passes (pf : platform) (catch : response)
      (v dir : value) (d : db) :
  truthy v = true -> Number pf v = NaN ->
  includes ["left"; "right"] dir = true ->
  exists rest, trace_of (run pf catch (post_swipe pf v v dir) d)
               = InsertSwipe v v dir :: rest.
Proof.
  intros Hv Hnan Hdir.
  apply run_post_swipe_valid; try assumption.
  rewrite Hnan. reflexivity.
Qed.

(** C5 as stated fails when the two equal values are no number: for
    [swiperId] and [targetId] both "abc", [Number] gives NaN on each side,
    [NaN === NaN] is false, and the request goes on to the INSERT.  A store
    that rejects the value answers 500, not 400; a store that reads it as 0
    writes the swipe of user 0 on user 0. *)
Lemma self_swipe_of_non_numbers :
  (let r := run plain post_swipe_catch
                (post_swipe plain (VStr "abc") (VStr "abc") (VStr "left"))
                empty_db in
   status (response_of r) = 500
   /\ status (response_of r) <> 400
   /\ trace_of r = [InsertSwipe (VStr "abc") (VStr "abc") (VStr "left")])
  /\ (let r := run lenient post_swipe_catch
                   (post_swipe lenient (VStr "abc") (VStr "abc") (VStr "left"))
                   empty_db in
      response_of r = json200 swiped
      /\ status (response_of r) <> 400
      /\ swipes (db_of r) = [mkSwipe 1 0 0 left_]).
Proof.
  split.
  - vm_compute. split; [reflexivity |]. split; [discriminate | reflexivity].
  - vm_compute. split; [reflexivity |]. split; [discriminate | reflexivity].
Qed.

(** The test is on numbers: the string "3" and the number 3 are the same
    id, for 'left' as for 'right'; and a value that is no number is not
    caught by it, since NaN is not equal to itself. *)
Example self_swipe_on_numbers :
  response_of (swipe_values plain (VStr "3") (VNum 3) (VStr "left") empty_db)
  = no_self_swipe
  /\ response_of (swipe_values plain (VNum 3) (VNum 3) (VStr "up") empty_db)
     = fields_required
  /\ run plain post_swipe_catch
         (post_swipe plain (VStr "abc") (VStr "abc") (VStr "right")) empty_db
     = (post_swipe_catch, empty_db,
        [InsertSwipe (VStr "abc") (VStr "abc") (VStr "right")]).
Proof. repeat split. Qed.

(** ** Resolution of a valid swipe *)

Lemma user_id_num (pf : platform) (a : Z) : a <> 0 -> user_id pf (VNum a) a.
Proof.
  intros Ha. unfold user_id. simpl. repeat split.
  apply negb_true_iff, Z.eqb_neq, Ha.
Qed.

Lemma has_rows_firstn (A : Type) (f : A -> Z) (p : A -> bool) (l : list A) :
  has_rows (firstn 1 (map f (filter p l))) = existsb p l.
Proof.
  induction l as [| x l IH]; simpl; [reflexivity |].
  destruct (p x); simpl; [reflexivity | exact IH].
Qed.

Lemma find_match_none (d : db) (u1 u2 : Z) :
  find_match d u1 u2 = None <-> existsb (pair_where u1 u2) (matches d) = false.
Proof.
  unfold find_match. induction (matches d) as [| m l IH]; simpl.
  - split; reflexivity.
  - destruct (pair_where u1 u2 m); simpl; [split; discriminate | exact IH].
Qed.

Lemma existsb_snoc (A : Type) (p : A -> bool) (l : list A) (x : A) :
  existsb p (l ++ [x]) = existsb p l || p x.
Proof. rewrite existsb_app. simpl. now rewrite orb_false_r. Qed.

(** A left swipe: one INSERT, nothing else. *)
Lemma run_post_swipe_left (pf : platform) (catch : response)
      (s t : value) (a b : Z) (d : db) :
  user_id pf s a -> user_id pf t b -> a <> b ->
  run pf catch (post_swipe pf s t (VStr "left")) d
  = (json200 swiped, add_swipe d a b left_, [InsertSwipe s t (VStr "left")]).
Proof.
  intros (Hs & Hns & Hqs) (Ht & Hnt & Hqt) Hab.
  unfold run, post_swipe. rewrite Hs, Ht, Hns, Hnt.
  cbn [includes existsb String.eqb Ascii.eqb Bool.eqb negb orb num_strict_eq].
  replace (a =? b) with false by (symmetry; apply Z.eqb_neq, Hab).
  rewrite eval_getQuery. cbn [exec]. rewrite Hqs, Hqt. reflexivity.
Qed.

(** A right swipe: the INSERT, the look-up of the reverse right swipe, and
    on reciprocity the look-up of the pair followed, when no row was found,
    by the INSERT of the match. *)
Lemma run_post_swipe_right (pf : platform) (catch : response)
      (s t : value) (a b : Z) (d : db) :
  user_id pf s a -> user_id pf t b -> a <> b ->
  run pf catch (post_swipe pf s t (VStr "right")) d
  = if hasReciprocalRight d a b then
      match find_match d (Z.min a b) (Z.max a b) with
      | None =>
          (json200 (new_match (Some (next_match d))),
           add_match (add_swipe d a b right_) (Z.min a b) (Z.max a b),
           right_trace s t (Z.min a b) (Z.max a b) 4)
      | Some _ =>
          (json200 already_matched, add_swipe d a b right_,
           right_trace s t (Z.min a b) (Z.max a b) 3)
      end
    else (json200 swiped, add_swipe d a b right_,
          right_trace s t (Z.min a b) (Z.max a b) 2).
Proof.
  intros (Hs & Hns & Hqs) (Ht & Hnt & Hqt) Hab.
  pose proof (orderPair_min_max pf s t a b Hns Hnt) as Hpair.
  unfold run, post_swipe. rewrite Hs, Ht, Hns, Hnt, Hpair.
  cbn [includes existsb String.eqb Ascii.eqb Bool.eqb negb orb num_strict_eq
       is_string].
  replace (a =? b) with false by (symmetry; apply Z.eqb_neq, Hab).
  rewrite eval_getQuery. cbn [exec]. rewrite Hqs, Hqt.
  cbn [sqlDir String.eqb Ascii.eqb Bool.eqb].
  rewrite eval_getQuery. cbn [exec rows_of]. rewrite Hqs, Hqt.
  rewrite has_rows_firstn.
  cbn [sqlDir String.eqb Ascii.eqb Bool.eqb swipes add_swipe].
  rewrite existsb_snoc.
  replace (swipe_where (Some b) (Some a) (Some right_)
             (mkSwipe (next_swipe d) a b right_)) with false
    by (unfold swipe_where; simpl;
        replace (a =? b) with false by (symmetry; apply Z.eqb_neq, Hab);
        reflexivity).
  rewrite orb_false_r.
  change (existsb (swipe_where (Some b) (Some a) (Some right_)) (swipes d))
    with (hasReciprocalRight d a b).
  destruct (hasReciprocalRight d a b); [| reflexivity].
  rewrite eval_getQuery. cbn [exec sqlNumber rows_of].
  rewrite has_rows_firstn. cbn [matches add_swipe].
  destruct (find_match d (Z.min a b) (Z.max a b)) as [i |] eqn:Hfind.
  - assert (He : existsb (pair_where (Z.min a b) (Z.max a b)) (matches d) = true).
    { destruct (existsb _ (matches d)) eqn:He; [reflexivity |].
      apply find_match_none in He. congruence. }
    rewrite He. reflexivity.
  - apply find_match_none in Hfind. rewrite Hfind. cbn [negb].
    rewrite eval_getQuery. cbn [exec sqlNumber matches add_swipe].
    rewrite Hfind, andb_false_r. reflexivity.
Qed.

(** C6. A left swipe never produces a match: whatever the store holds, a
    valid request with direction 'left' is answered [matched: false], the
    only statement sent is the INSERT of the swipe (no look-up of a reverse
    swipe, no statement on [matches]), and [matches] is unchanged. *)
Theorem left_swipe_never_matches (pf : platform) (catch : response)
        (s t : value) (a b : Z) (d : db) :
  user_id pf s a -> user_id pf t b -> a <> b ->
  let r := run pf catch (post_swipe pf s t (VStr "left")) d in
  response_of r = mkResponse 200 (SwipeBody "Swipe opgeslagen" false None)
  /\ trace_of r = [InsertSwipe s t (VStr "left")]
  /\ matches (db_of r) = matches d
  /\ next_match (db_of r) = next_match d.
Proof.
  intros Hs Ht Hab r. subst r.
  rewrite (run_post_swipe_left pf catch s t a b d Hs Ht Hab).
  repeat split.
Qed.

Lemma left_swipe_never_matches_witness :
  let d := mkDb [mkSwipe 1 9 5 right_] [mkMatch 1 5 9] [] 2 2 1 0 in
  let r := run plain post_swipe_catch
               (post_swipe plain (VNum 5) (VNum 9) (VStr "left")) d in
  response_of r = mkResponse 200 (SwipeBody "Swipe opgeslagen" false None)
  /\ trace_of r = [InsertSwipe (VNum 5) (VNum 9) (VStr "left")]
  /\ matches (db_of r) = matches d
  /\ next_match (db_of r) = next_match d.
Proof.
  intros d.
  apply (left_swipe_never_matches plain post_swipe_catch (VNum 5) (VNum 9) 5 9 d).
  - apply user_id_num. lia.
  - apply user_id_num. lia.
  - lia.
Defined.

(** C9. Every valid swipe appends exactly one event: after the request the
    ledger is the ledger before followed by one new row for (swiper,
    target, direction); the INSERT is the first statement sent, ahead of
    any look-up; and the rows that were there are kept as they were, an
    earlier event for the same pair included. *)
Theorem swipe_always_recorded (pf : platform) (catch : response)
        (s t dir : value) (a b : Z) (d : db) :
  user_id pf s a -> user_id pf t b -> a <> b ->
  dir = VStr "left" \/ dir = VStr "right" ->
  let r := run pf catch (post_swipe pf s t dir) d in
  exists c rest,
    sqlDir dir = Some c
    /\ swipes (db_of r) = (swipes d ++ [mkSwipe (next_swipe d) a b c])%list
    /\ trace_of r = InsertSwipe s t dir :: rest
    /\ ~ In (InsertSwipe s t dir) rest.
Proof.
  intros Hs Ht Hab [-> | ->] r; subst r.
  - rewrite (run_post_swipe_left pf catch s t a b d Hs Ht Hab).
    exists left_, []. repeat split. intros [].
  - rewrite (run_post_swipe_right pf catch s t a b d Hs Ht Hab).
    destruct (hasReciprocalRight d a b);
      [destruct (find_match d (Z.min a b) (Z.max a b)) |];
      eexists right_, _; (split; [reflexivity |]);
      (split; [reflexivity |]); (split; [reflexivity |]);
      simpl; intros H; repeat (destruct H as [H | H]; [discriminate H |]);
      exact H.
Qed.

Lemma swipe_always_recorded_witness :
  let d := mkDb [mkSwipe 1 5 9 right_] [] [] 2 1 1 0 in
  let r := run plain post_swipe_catch
               (post_swipe plain (VNum 5) (VNum 9) (VStr "right")) d in
  exists c rest,
    sqlDir (VStr "right") = Some c
    /\ swipes (db_of r) = (swipes d ++ [mkSwipe (next_swipe d) 5 9 c])%list
    /\ trace_of r = InsertSwipe (VNum 5) (VNum 9) (VStr "right") :: rest
    /\ ~ In (InsertSwipe (VNum 5) (VNum 9) (VStr "right")) rest.
Proof.
  intros d.
  apply (swipe_always_recorded plain post_swipe_catch (VNum 5) (VNum 9)
           (VStr "right") 5 9 d).
  - apply user_id_num. lia.
  - apply user_id_num. lia.
  - lia.
  - right. reflexivity.
Defined.

(** ** The response and the outcome of the resolver *)

(** C2, as amended. The 200 response of a valid swipe reflects the outcome:
    [matched: false] for NotRight and NoReciprocity; [matched: true] with
    [matchId] the key of the row just inserted for NewMatch; [matched: true]
    and no [matchId] key for AlreadyMatched. *)
Theorem swipe_response_reflects_outcome (pf : platform) (catch : response)
        (s t direction : value) (a b : Z) (c : dir) (d : db) :
  user_id pf s a -> user_id pf t b -> a <> b ->
  (c = left_ /\ direction = VStr "left") \/ (c = right_ /\ direction = VStr "right") ->
  let r := run pf catch (post_swipe pf s t direction) d in
  response_of r = mkResponse 200 (body_of_outcome (onSwipe d a b c))
  /\ (forall i, onSwipe d a b c = NewMatch i ->
        matched_of (response_of r) = Some true
        /\ matchId_of (response_of r) = Some i
        /\ In (mkMatch i (Z.min a b) (Z.max a b)) (matches (db_of r)))
  /\ (forall i, onSwipe d a b c = AlreadyMatched i ->
        matched_of (response_of r) = Some true
        /\ matchId_of (response_of r) = None)
  /\ (onSwipe d a b c = NotRight \/ onSwipe d a b c = NoReciprocity ->
        matched_of (response_of r) = Some false
        /\ matchId_of (response_of r) = None).
Proof.
  intros Hs Ht Hab [[-> ->] | [-> ->]] r; subst r.
  - rewrite (run_post_swipe_left pf catch s t a b d Hs Ht Hab). simpl.
    split; [reflexivity |]. split; [discriminate |]. split; [discriminate |].
    intros _. split; reflexivity.
  - rewrite (run_post_swipe_right pf catch s t a b d Hs Ht Hab).
    unfold onSwipe.
    destruct (hasReciprocalRight d a b);
      [destruct (find_match d (Z.min a b) (Z.max a b)) as [j |] |]; simpl.
    + split; [reflexivity |]. split; [discriminate |].
      split; [intros i _; split; reflexivity |].
      intros [H | H]; discriminate H.
    + split; [reflexivity |]. split.
      * intros i Hi. injection Hi as <-.
        split; [reflexivity |]. split; [reflexivity |].
        apply in_or_app. right. left. reflexivity.
      * split; [discriminate |]. intros [H | H]; discriminate H.
    + split; [reflexivity |]. split; [discriminate |]. split; [discriminate |].
      intros _. split; reflexivity.
Qed.

Lemma swipe_response_reflects_outcome_witness :
  let d := mkDb [mkSwipe 1 5 9 right_] [] [] 2 1 1 0 in
  let r := run plain post_swipe_catch
               (post_swipe plain (VNum 9) (VNum 5) (VStr "right")) d in
  response_of r = mkResponse 200 (body_of_outcome (onSwipe d 9 5 right_))
  /\ (forall i, onSwipe d 9 5 right_ = NewMatch i ->
        matched_of (response_of r) = Some true
        /\ matchId_of (response_of r) = Some i
        /\ In (mkMatch i (Z.min 9 5) (Z.max 9 5)) (matches (db_of r)))
  /\ (forall i, onSwipe d 9 5 right_ = AlreadyMatched i ->
        matched_of (response_of r) = Some true
        /\ matchId_of (response_of r) = None)
  /\ (onSwipe d 9 5 right_ = NotRight \/ onSwipe d 9 5 right_ = NoReciprocity ->
        matched_of (response_of r) = Some false
        /\ matchId_of (response_of r) = None).
Proof.
  intros d.
  apply (swipe_response_reflects_outcome plain post_swipe_catch
           (VNum 9) (VNum 5) (VStr "right") 9 5 right_ d).
  - apply user_id_num. lia.
  - apply user_id_num. lia.
  - lia.
  - right. split; reflexivity.
Defined.

(** C2 as stated fails on the third step of the scenario: after 5 and 9
    have matched (match 1), a new right swipe of 5 on 9 has outcome
    AlreadyMatched 1 and is answered [matched: true] without [matchId]. *)
Lemma already_matched_has_no_matchId :
  let d1 := db_of (swipe plain 5 9 "right" empty_db) in
  let d2 := db_of (swipe plain 9 5 "right" d1) in
  let r := swipe plain 5 9 "right" d2 in
  onSwipe d2 5 9 right_ = AlreadyMatched 1
  /\ matches d2 = [mkMatch 1 5 9]
  /\ status (response_of r) = 200
  /\ matched_of (response_of r) = Some true
  /\ matchId_of (response_of r) = None
  /\ matchId_of (response_of r) <> Some 1.
Proof. vm_compute. repeat split. discriminate. Qed.

(** ** Chat authorization *)

Lemma eval_userInMatch (pf : platform) (A : Type) (matchId userId : value)
      (k : bool -> prog A) (d : db) :
  eval pf (allowed <- userInMatch matchId userId ;; k allowed) d
  = let '(a, d', t) := eval pf (k (is_member pf d matchId userId)) d in
    (a, d', SelectMatchMember matchId userId userId :: t).
Proof.
  unfold userInMatch, getQuery, is_member.
  cbn [bind eval exec rows_of]. rewrite has_rows_firstn. reflexivity.
Qed.

Lemma is_member_authorize (pf : platform) (d : db) (matchId userId : value)
      (mi ui : Z) :
  sqlInt pf matchId = Some mi -> sqlInt pf userId = Some ui ->
  is_member pf d matchId userId = true <-> authorize d mi ui.
Proof.
  intros Hm Hu. unfold is_member, authorize. rewrite Hm, Hu, existsb_exists.
  unfold member_where, int_is.
  split.
  - intros (m & Hin & H). exists m.
    apply andb_true_iff in H as [H1 H2]. apply Z.eqb_eq in H1.
    apply orb_true_iff in H2. rewrite !Z.eqb_eq in H2. auto.
  - intros (m & Hin & H1 & H2). exists m. split; [exact Hin |].
    apply andb_true_iff. split; [apply Z.eqb_eq, H1 |].
    apply orb_true_iff. rewrite !Z.eqb_eq. exact H2.
Qed.

(** C7. [userInMatch] answers true exactly when a row of [matches] has the
    given id and the user as [user1_id] or [user2_id]; it only reads.  When
    it answers false, [GET /messages] and [POST /messages] respond 403 (not
    404), with the store unchanged and nothing read from or written to
    [messages]. *)
Theorem userInMatch_exact (pf : platform) (catch : response)
        (matchId userId content_ : value) (mi ui : Z) (d : db) :
  sqlInt pf matchId = Some mi -> sqlInt pf userId = Some ui ->
  truthy matchId = true -> truthy userId = true -> truthy content_ = true ->
  (exists allowed,
      eval pf (userInMatch matchId userId) d
      = (Some allowed, d, [SelectMatchMember matchId userId userId])
      /\ (allowed = true <-> authorize d mi ui))
  /\ (~ authorize d mi ui ->
      run pf catch (get_messages matchId userId) d
      = (forbidden, d, [SelectMatchMember matchId userId userId])
      /\ run pf catch (post_messages matchId userId content_) d
         = (forbidden, d, [SelectMatchMember matchId userId userId]))
  /\ status forbidden = 403 /\ status forbidden <> 404.
Proof.
  intros Hm Hu Htm Htu Htc. split; [| split].
  - exists (is_member pf d matchId userId). split.
    + unfold userInMatch, getQuery, is_member.
      cbn [bind eval exec rows_of]. rewrite has_rows_firstn. reflexivity.
    + apply is_member_authorize; assumption.
  - intros Hno.
    assert (Hb : is_member pf d matchId userId = false).
    { destruct (is_member pf d matchId userId) eqn:Hb; [| reflexivity].
      exfalso. apply Hno. eapply is_member_authorize; eassumption. }
    unfold run, get_messages, post_messages. rewrite Htm, Htu, Htc.
    cbn [negb orb]. rewrite !eval_userInMatch, Hb. split; reflexivity.
  - split; [reflexivity | discriminate].
Qed.

(** The scenario: 5 and 9 have matched (match 1); user 7 is refused. *)
Lemma userInMatch_exact_witness :
  let d := mkDb [] [mkMatch 1 5 9] [] 1 2 1 0 in
  (exists allowed,
      eval plain (userInMatch (VNum 1) (VNum 7)) d
      = (Some allowed, d, [SelectMatchMember (VNum 1) (VNum 7) (VNum 7)])
      /\ (allowed = true <-> authorize d 1 7))
  /\ (~ authorize d 1 7 ->
      run plain get_messages_catch (get_messages (VNum 1) (VNum 7)) d
      = (forbidden, d, [SelectMatchMember (VNum 1) (VNum 7) (VNum 7)])
      /\ run plain get_messages_catch
             (post_messages (VNum 1) (VNum 7) (VStr "hi")) d
         = (forbidden, d, [SelectMatchMember (VNum 1) (VNum 7) (VNum 7)]))
  /\ status forbidden = 403 /\ status forbidden <> 404.
Proof.
  intros d.
  apply (userInMatch_exact plain get_messages_catch (VNum 1) (VNum 7)
           (VStr "hi") 1 7 d); reflexivity.
Defined.

(** ** The message log *)

Section SortingFacts.

Variable le : message_row -> message_row -> bool.
Hypothesis le_sound : forall x y, le x y = true -> sent_at x <= sent_at y.
Hypothesis le_total : forall x y, le x y = false -> sent_at y <= sent_at x.

Lemma insert_row_perm (x : message_row) (l : list message_row) :
  Permutation (x :: l) (insert_row le x l).
Proof.
  induction l as [| y r IH]; simpl.
  - apply Permutation_refl.
  - destruct (le x y).
    + apply Permutation_refl.
    + eapply perm_trans; [apply perm_swap |]. apply perm_skip, IH.
Qed.

Lemma sort_rows_perm (l : list message_row) : Permutation l (sort_rows le l).
Proof.
  induction l as [| x l IH]; simpl.
  - apply perm_nil.
  - eapply perm_trans; [apply perm_skip, IH | apply insert_row_perm].
Qed.

Lemma insert_row_sorted (x : message_row) (l : list message_row) :
  StronglySorted sent_at_le l -> StronglySorted sent_at_le (insert_row le x l).
Proof.
  induction l as [| y r IH]; simpl; intros Hl.
  - constructor; constructor.
  - inversion Hl as [| ? ? Hr Hy]; subst.
    destruct (le x y) eqn:Hxy.
    + constructor; [exact Hl |].
      apply le_sound in Hxy. constructor; [exact Hxy |].
      eapply Forall_impl; [| exact Hy].
      intros z Hz. unfold sent_at_le in *. lia.
    + constructor; [apply IH, Hr |].
      eapply Permutation_Forall; [apply insert_row_perm |].
      constructor; [apply le_total, Hxy | exact Hy].
Qed.

Lemma sort_rows_sorted (l : list message_row) :
  StronglySorted sent_at_le (sort_rows le l).
Proof.
  induction l as [| x l IH]; simpl.
  - constructor.
  - apply insert_row_sorted, IH.
Qed.

End SortingFacts.

Lemma plain_contract : order_by_contract plain.
Proof.
  intros l. simpl. split.
  - apply sort_rows_perm.
  - apply sort_rows_sorted; unfold le_sent_at; intros x y H; lia.
Qed.

Lemma unstable_contract : order_by_contract unstable.
Proof.
  intros l. simpl. split.
  - apply sort_rows_perm.
  - apply sort_rows_sorted; unfold le_sent_at_id_desc; intros x y H; lia.
Qed.

(** C8, as amended. For a participant, [GET /messages] answers 200 with
    exactly the messages of the match, in non-decreasing [sent_at] order;
    the order among messages with equal [sent_at] is the store's.  The
    request only reads: the store is unchanged, and asking again gives the
    same answer. *)
Theorem get_messages_ordered (pf : platform) (catch : response)
        (matchId userId : value) (mi ui : Z) (d : db) :
  order_by_contract pf ->
  sqlInt pf matchId = Some mi -> sqlInt pf userId = Some ui ->
  truthy matchId = true -> truthy userId = true ->
  authorize d mi ui ->
  let r := run pf catch (get_messages matchId userId) d in
  (exists rows,
      r = (mkResponse 200 (MessageList (map out_of rows)), d,
           [SelectMatchMember matchId userId userId; SelectMessages matchId])
      /\ Permutation (filter (of_match mi) (messages d)) rows
      /\ StronglySorted sent_at_le rows)
  /\ db_of r = d
  /\ run pf catch (get_messages matchId userId) (db_of r) = r.
Proof.
  intros Hc Hm Hu Htm Htu Hauth r.
  assert (Hb : is_member pf d matchId userId = true)
    by (eapply is_member_authorize; eassumption).
  assert (Hr : r = (mkResponse 200 (MessageList (map out_of
                      (order_by_sent_at pf (filter (of_match mi) (messages d))))),
                    d,
                    [SelectMatchMember matchId userId userId;
                     SelectMessages matchId])).
  { subst r. unfold run, get_messages. rewrite Htm, Htu. cbn [negb orb].
    rewrite eval_userInMatch, Hb. cbn [negb].
    rewrite eval_getQuery. cbn [exec]. rewrite Hm. reflexivity. }
  split; [| split].
  - eexists. split; [exact Hr |]. apply Hc.
  - rewrite Hr. reflexivity.
  - rewrite Hr at 1. reflexivity.
Qed.

Lemma get_messages_ordered_witness :
  let r := run plain get_messages_catch
               (get_messages (VNum 1) (VNum 5)) (chat plain) in
  (exists rows,
      r = (mkResponse 200 (MessageList (map out_of rows)), chat plain,
           [SelectMatchMember (VNum 1) (VNum 5) (VNum 5);
            SelectMessages (VNum 1)])
      /\ Permutation (filter (of_match 1) (messages (chat plain))) rows
      /\ StronglySorted sent_at_le rows)
  /\ db_of r = chat plain
  /\ run plain get_messages_catch (get_messages (VNum 1) (VNum 5)) (db_of r) = r.
Proof.
  apply (get_messages_ordered plain get_messages_catch (VNum 1) (VNum 5) 1 5
           (chat plain) plain_contract);
    try reflexivity.
  exists (mkMatch 1 5 9).
  split; [vm_compute; left; reflexivity |].
  split; [reflexivity | left; reflexivity].
Defined.

(** C8 as stated fails where the store does not keep table order among
    equal keys: [unstable] honours ORDER BY sent_at ASC, and the two
    messages of the scenario, stamped alike, come back newest id first. *)
Lemma ties_not_ordered_by_id :
  order_by_contract unstable
  /\ exists rows,
      response_of (run unstable get_messages_catch
                       (get_messages (VNum 1) (VNum 5)) (chat unstable))
      = mkResponse 200 (MessageList rows)
      /\ map o_id rows = [2; 1]
      /\ map o_sent_at rows = [0; 0]
      /\ map o_content rows = [VStr "hello"; VStr "hi"]
      /\ ~ StronglySorted by_sent_at_then_id rows.
Proof.
  split; [exact unstable_contract |].
  eexists. split; [vm_compute; reflexivity |].
  split; [reflexivity |]. split; [reflexivity |]. split; [reflexivity |].
  intros H. inversion H as [| x l _ HF]; subst.
  inversion HF as [| y l' Hxy _]; subst.
  unfold by_sent_at_then_id in Hxy. simpl in Hxy. lia.
Qed.

(** ** At most one match per pair *)

Lemma pair_where_iff (u1 u2 : Z) (m : match_row) :
  pair_where u1 u2 m = true <-> pair_of m = (u1, u2).
Proof.
  unfold pair_where, pair_of. rewrite andb_true_iff, !Z.eqb_eq.
  split; [intros [-> ->]; reflexivity | intros H; injection H; auto].
Qed.

Lemma pairs_ok_nil : pairs_ok [].
Proof. split; constructor. Qed.

Lemma pairs_ok_filter (p : match_row -> bool) (l : list match_row) :
  pairs_ok l -> pairs_ok (filter p l).
Proof.
  intros [Hnd Hlt]. split.
  - induction l as [| m l IH]; simpl; [constructor |].
    inversion Hnd as [| ? ? Hnin Hnd']; subst.
    inversion Hlt as [| ? ? _ Hlt']; subst.
    destruct (p m); simpl; [| apply IH; assumption].
    constructor; [| apply IH; assumption].
    intros Hin. apply Hnin. apply in_map_iff in Hin as (m' & Heq & Hin).
    apply filter_In in Hin as [Hin _]. apply in_map_iff. eauto.
  - apply Forall_forall. intros m Hin. apply filter_In in Hin as [Hin _].
    rewrite Forall_forall in Hlt. apply Hlt, Hin.
Qed.

Lemma pairs_ok_snoc (l : list match_row) (i u1 u2 : Z) :
  pairs_ok l -> u1 < u2 -> existsb (pair_where u1 u2) l = false ->
  pairs_ok (l ++ [mkMatch i u1 u2]).
Proof.
  intros [Hnd Hlt] Hu Hex. split.
  - rewrite map_app. simpl.
    apply (Permutation_NoDup (l := pair_of (mkMatch i u1 u2) :: map pair_of l)).
    + apply Permutation_cons_append.
    + constructor; [| exact Hnd].
      intros Hin. apply in_map_iff in Hin as (m & Heq & Hin).
      assert (Ht : existsb (pair_where u1 u2) l = true).
      { apply existsb_exists. exists m. split; [exact Hin |].
        apply pair_where_iff. exact Heq. }
      congruence.
  - apply Forall_app. split; [exact Hlt |]. constructor; [exact Hu | constructor].
Qed.

Lemma pairs_ok_at_most_one (l : list match_row) (a b : Z) :
  pairs_ok l ->
  (List.length (filter (fun m => pair_where a b m || pair_where b a m) l) <= 1)%nat.
Proof.
  induction l as [| m l IH]; intros [Hnd Hlt]; simpl; [lia |].
  inversion Hnd as [| ? ? Hnin Hnd']; subst.
  inversion Hlt as [| ? ? Hm Hlt']; subst.
  specialize (IH (conj Hnd' Hlt')).
  destruct (pair_where a b m || pair_where b a m) eqn:Hp; [| exact IH].
  destruct (filter _ l) as [| m' rest] eqn:Hf; simpl; [lia |].
  exfalso. apply Hnin.
  assert (Hin : In m' (filter (fun m => pair_where a b m || pair_where b a m) l))
    by (rewrite Hf; left; reflexivity).
  apply filter_In in Hin as [Hin Hp'].
  assert (Hm' : user1_id m' < user2_id m')
    by (rewrite Forall_forall in Hlt'; apply Hlt', Hin).
  apply in_map_iff. exists m'. split; [| exact Hin].
  apply orb_true_iff in Hp, Hp'. rewrite !pair_where_iff in Hp, Hp'.
  unfold pair_of in *.
  destruct Hp as [Hp | Hp], Hp' as [Hp' | Hp'];
    injection Hp as E1 E2; injection Hp' as E3 E4; f_equal; lia.
Qed.

Lemma db_of_run (pf : platform) (catch : response) (p : prog response) (d : db) :
  db_of (run pf catch p d) = db_after pf p d.
Proof.
  unfold run, db_after, db_of.
  destruct (eval pf p d) as [[[r |] d'] t]; reflexivity.
Qed.

Lemma db_after_getQuery (pf : platform) (A : Type) (q : query)
      (k : result -> prog A) (d : db) :
  db_after pf (r <- getQuery q ;; k r) d
  = match exec pf d q with
    | (Some r, d') => db_after pf (k r) d'
    | (None, d') => d'
    end.
Proof.
  unfold db_after. rewrite eval_getQuery.
  destruct (exec pf d q) as [[r |] d']; [| reflexivity].
  destruct (eval pf (k r) d') as [[a d''] t]. reflexivity.
Qed.

Lemma db_after_userInMatch (pf : platform) (A : Type) (matchId userId : value)
      (k : bool -> prog A) (d : db) :
  db_after pf (allowed <- userInMatch matchId userId ;; k allowed) d
  = db_after pf (k (is_member pf d matchId userId)) d.
Proof.
  unfold db_after. rewrite eval_userInMatch.
  destruct (eval pf (k _) d) as [[a d'] t]. reflexivity.
Qed.

Lemma orderPair_lt (pf : platform) (s t : value) (u1 u2 : Z) :
  num_strict_eq (Number pf s) (Number pf t) = false ->
  orderPair pf s t = (Fin u1, Fin u2) -> u1 < u2.
Proof.
  unfold orderPair.
  destruct (Number pf s) as [| x], (Number pf t) as [| y]; simpl;
    try discriminate.
  intros Hne. apply Z.eqb_neq in Hne.
  destruct (Z.ltb_spec x y) as [Hlt | Hge]; intros Heq; injection Heq as <- <-; lia.
Qed.

Lemma post_swipe_invariant (pf : platform) (catch : response)
      (s t dir : value) (d : db) :
  match_invariant d ->
  match_invariant (db_of (run pf catch (post_swipe pf s t dir) d)).
Proof.
  intros Hinv. rewrite db_of_run. unfold post_swipe.
  destruct (negb (truthy s) || negb (truthy t)
            || negb (includes ["left"; "right"] dir)); [exact Hinv |].
  destruct (num_strict_eq (Number pf s) (Number pf t)) eqn:Hne; [exact Hinv |].
  rewrite db_after_getQuery. cbn [exec].
  destruct (sqlInt pf s) as [a |]; [| exact Hinv].
  destruct (sqlInt pf t) as [b |]; [| exact Hinv].
  destruct (sqlDir dir) as [c |]; [| exact Hinv].
  destruct (is_string dir "right"); [| exact Hinv].
  rewrite db_after_getQuery. cbn [exec rows_of].
  destruct (has_rows _); [| exact Hinv].
  destruct (orderPair pf s t) as [n1 n2] eqn:Hop.
  rewrite db_after_getQuery. cbn [exec].
  destruct n1 as [| u1]; [exact Hinv |].
  destruct n2 as [| u2]; [exact Hinv |].
  cbn [sqlNumber rows_of]. rewrite has_rows_firstn.
  cbn [matches add_swipe].
  destruct (existsb (pair_where u1 u2) (matches d)) eqn:Hex; [exact Hinv |].
  cbn [negb]. rewrite db_after_getQuery. cbn [exec sqlNumber matches add_swipe].
  rewrite Hex, andb_false_r.
  unfold db_after, match_invariant. cbn.
  apply pairs_ok_snoc; [exact Hinv | | exact Hex].
  eapply orderPair_lt; eassumption.
Qed.

Lemma get_messages_reads (pf : platform) (catch : response)
      (matchId userId : value) (d : db) :
  db_of (run pf catch (get_messages matchId userId) d) = d.
Proof.
  rewrite db_of_run. unfold get_messages.
  destruct (negb (truthy matchId) || negb (truthy userId)); [reflexivity |].
  rewrite db_after_userInMatch.
  destruct (negb (is_member pf d matchId userId)); reflexivity.
Qed.

Lemma post_messages_matches (pf : platform) (catch : response)
      (matchId senderId content_ : value) (d : db) :
  matches (db_of (run pf catch (post_messages matchId senderId content_) d))
  = matches d.
Proof.
  rewrite db_of_run. unfold post_messages.
  destruct (negb (truthy matchId) || negb (truthy senderId)
            || negb (truthy content_)); [reflexivity |].
  rewrite db_after_userInMatch.
  destruct (negb (is_member pf d matchId senderId)); [reflexivity |].
  rewrite db_after_getQuery. cbn [exec].
  destruct (sqlInt pf matchId), (sqlInt pf senderId); reflexivity.
Qed.

Lemma delete_admin_user_invariant (pf : platform) (catch : response)
      (userId : value) (d : db) :
  match_invariant d ->
  match_invariant (db_of (run pf catch (delete_admin_user userId) d)).
Proof.
  intros Hinv. rewrite db_of_run. unfold delete_admin_user.
  destruct (negb (truthy userId)); [exact Hinv |].
  unfold db_after, match_invariant. cbn.
  apply pairs_ok_filter, Hinv.
Qed.

(** C3. In a sequential execution [matches] holds at most one row per pair
    of users.  From a store that satisfies the invariant, every handler that
    touches the tables of the core leaves one that satisfies it, whatever
    the request; and once the pair of [a] and [b] has a row, a right swipe
    that finds the reverse right swipe, from either side, is answered as an
    existing match and leaves [matches] as it was. *)
Theorem one_match_per_pair (pf : platform) (d : db) :
  match_invariant d ->
  at_most_one_match d
  /\ (forall catch s t dir,
        match_invariant (db_of (run pf catch (post_swipe pf s t dir) d)))
  /\ (forall catch m u,
        match_invariant (db_of (run pf catch (get_messages m u) d)))
  /\ (forall catch m u c,
        match_invariant (db_of (run pf catch (post_messages m u c) d)))
  /\ (forall catch u,
        match_invariant (db_of (run pf catch (delete_admin_user u) d)))
  /\ (forall catch s t a b i,
        user_id pf s a -> user_id pf t b -> a <> b ->
        find_match d (Z.min a b) (Z.max a b) = Some i ->
        (hasReciprocalRight d a b = true ->
         let r := run pf catch (post_swipe pf s t (VStr "right")) d in
         onSwipe d a b right_ = AlreadyMatched i
         /\ json (response_of r) = already_matched
         /\ matches (db_of r) = matches d)
        /\ (hasReciprocalRight d b a = true ->
            let r := run pf catch (post_swipe pf t s (VStr "right")) d in
            onSwipe d b a right_ = AlreadyMatched i
            /\ json (response_of r) = already_matched
            /\ matches (db_of r) = matches d)).
Proof.
  intros Hinv. split; [| split; [| split; [| split; [| split]]]].
  - intros a b. apply pairs_ok_at_most_one, Hinv.
  - intros catch s t dir. apply post_swipe_invariant, Hinv.
  - intros catch m u. rewrite get_messages_reads. exact Hinv.
  - intros catch m u c. unfold match_invariant.
    rewrite post_messages_matches. exact Hinv.
  - intros catch u. apply delete_admin_user_invariant, Hinv.
  - intros catch s t a b i Hs Ht Hab Hfind. split; intros Hrec r; subst r.
    + rewrite (run_post_swipe_right pf catch s t a b d Hs Ht Hab).
      unfold onSwipe. rewrite Hrec, Hfind. repeat split.
    + assert (Hba : b <> a) by congruence.
      rewrite (run_post_swipe_right pf catch t s b a d Ht Hs Hba).
      unfold onSwipe. rewrite Hrec, (Z.min_comm b a), (Z.max_comm b a), Hfind.
      repeat split.
Qed.

Lemma one_match_per_pair_witness :
  at_most_one_match matched_5_9
  /\ (forall catch s t dir,
        match_invariant
          (db_of (run plain catch (post_swipe plain s t dir) matched_5_9)))
  /\ (forall catch m u,
        match_invariant (db_of (run plain catch (get_messages m u) matched_5_9)))
  /\ (forall catch m u c,
        match_invariant
          (db_of (run plain catch (post_messages m u c) matched_5_9)))
  /\ (forall catch u,
        match_invariant
          (db_of (run plain catch (delete_admin_user u) matched_5_9)))
  /\ (forall catch s t a b i,
        user_id plain s a -> user_id plain t b -> a <> b ->
        find_match matched_5_9 (Z.min a b) (Z.max a b) = Some i ->
        (hasReciprocalRight matched_5_9 a b = true ->
         let r := run plain catch (post_swipe plain s t (VStr "right"))
                      matched_5_9 in
         onSwipe matched_5_9 a b right_ = AlreadyMatched i
         /\ json (response_of r) = already_matched
         /\ matches (db_of r) = matches matched_5_9)
        /\ (hasReciprocalRight matched_5_9 b a = true ->
            let r := run plain catch (post_swipe plain t s (VStr "right"))
                         matched_5_9 in
            onSwipe matched_5_9 b a right_ = AlreadyMatched i
            /\ json (response_of r) = already_matched
            /\ matches (db_of r) = matches matched_5_9)).
Proof.
  apply (one_match_per_pair plain matched_5_9).
  split.
  - constructor; [simpl; tauto | constructor].
  - constructor; [simpl; lia | constructor].
Defined.

(** The scenario run in sequence: 5 on 9, 9 on 5, then 5 on 9 and 9 on 5
    again.  One row, and the repeats are answered as an existing match. *)
Example scenario_sequential :
  let d1 := db_of (swipe plain 5 9 "right" empty_db) in
  let d2 := db_of (swipe plain 9 5 "right" d1) in
  let d3 := db_of (swipe plain 5 9 "right" d2) in
  let d4 := db_of (swipe plain 9 5 "right" d3) in
  json (response_of (swipe plain 5 9 "right" empty_db)) = swiped
  /\ json (response_of (swipe plain 9 5 "right" d1)) = new_match (Some 1)
  /\ json (response_of (swipe plain 5 9 "right" d2)) = already_matched
  /\ json (response_of (swipe plain 9 5 "right" d3)) = already_matched
  /\ matches d4 = [mkMatch 1 5 9].
Proof. vm_compute. repeat split. Qed.

(** ** Concurrent requests *)

(** A request alone is the sequential run: given enough turns, the task
    ends with the response and the store of [run]. *)
Lemma run_schedule_alone (pf : platform) (catch : response)
      (p : prog response) (d : db) :
  exists n,
    run_schedule pf (repeat O n) [mkTask p catch] d
    = ([mkTask (Ret (response_of (run pf catch p d))) catch],
       db_of (run pf catch p d)).
Proof.
  revert d. induction p as [r | q k IH]; intros d.
  - exists O. reflexivity.
  - unfold run. cbn [eval].
    destruct (exec pf d q) as [[r |] d'] eqn:Hq.
    + destruct (IH r d') as [n Hn]. exists (S n).
      cbn [repeat run_schedule step_nth step_task code on_error].
      rewrite Hq, Hn. unfold run.
      destruct (eval pf (k r) d') as [[[r' |] d''] t]; reflexivity.
    + exists 1%nat.
      cbn [repeat run_schedule step_nth step_task code on_error].
      rewrite Hq. reflexivity.
Qed.

(** C1. Match creation is a SELECT followed by an INSERT, two statements
    with an [await] between them.  When 5 swipes right on 9 while 9 swipes
    right on 5 and the requests alternate, both look-ups find no row and
    both requests insert: [matches] ends with two rows for the pair (5, 9)
    and both are answered as a new match.  With a unique key on the pair
    the second INSERT is rejected and that request is answered 500.  Run
    one after the other, the same requests leave one row. *)
Theorem concurrent_swipes_race :
  (let (pool, d) := run_schedule plain alternate
                      [swipe_task plain 5 9 "right"; swipe_task plain 9 5 "right"]
                      empty_db in
   map answer pool = [Some (json200 (new_match (Some 1)));
                      Some (json200 (new_match (Some 2)))]
   /\ matches d = [mkMatch 1 5 9; mkMatch 2 5 9]
   /\ List.length (rows_of_pair d 5 9) = 2%nat
   /\ ~ at_most_one_match d)
  /\ (let (pool, d) := run_schedule keyed alternate
                         [swipe_task keyed 5 9 "right"; swipe_task keyed 9 5 "right"]
                         empty_db in
      map answer pool = [Some (json200 (new_match (Some 1)));
                         Some post_swipe_catch]
      /\ status post_swipe_catch = 500
      /\ matches d = [mkMatch 1 5 9])
  /\ (let (pool, d) := run_schedule plain one_by_one
                         [swipe_task plain 5 9 "right"; swipe_task plain 9 5 "right"]
                         empty_db in
      map answer pool = [Some (json200 swiped);
                         Some (json200 (new_match (Some 1)))]
      /\ matches d = [mkMatch 1 5 9])
  /\ trace_of (swipe plain 9 5 "right"
                 (db_of (swipe plain 5 9 "right" empty_db)))
     = [InsertSwipe (VNum 9) (VNum 5) (VStr "right");
        SelectSwipe (VNum 5) (VNum 9) (VStr "right");
        SelectMatchPair (Fin 5) (Fin 9);
        InsertMatch (Fin 5) (Fin 9)].
Proof.
  split; [| split; [| split]].
  - vm_compute. split; [reflexivity |]. split; [reflexivity |].
    split; [reflexivity |].
    intros H. specialize (H 5 9). vm_compute in H. lia.
  - vm_compute. repeat split.
  - vm_compute. repeat split.
  - vm_compute. reflexivity.
Qed.

Lemma step_getQuery (pf : platform) (q : query) (k : result -> prog response)
      (c : response) (d : db) :
  step_task pf (mkTask (r <- getQuery q ;; k r) c) d
  = match exec pf d q with
    | (Some r, d') => (mkTask (k r) c, d')
    | (None, d') => (mkTask (Ret c) c, d')
    end.
Proof. reflexivity. Qed.

Lemma post_swipe_right_valid (pf : platform) (s t : value) (a b : Z) :
  user_id pf s a -> user_id pf t b -> a <> b ->
  post_swipe pf s t (VStr "right")
  = (_ <- getQuery (InsertSwipe s t (VStr "right")) ;;
     reverse <- getQuery (SelectSwipe t s (VStr "right")) ;;
     if has_rows (rows_of reverse) then
       exists_ <- getQuery (SelectMatchPair (Fin (Z.min a b)) (Fin (Z.max a b))) ;;
       if negb (has_rows (rows_of exists_)) then
         insert <- getQuery (InsertMatch (Fin (Z.min a b)) (Fin (Z.max a b))) ;;
         Ret (json200 (new_match (insertId_of insert)))
       else Ret (json200 already_matched)
     else Ret (json200 swiped)).
Proof.
  intros (Hs & Hns & Hqs) (Ht & Hnt & Hqt) Hab.
  pose proof (orderPair_min_max pf s t a b Hns Hnt) as Hpair.
  unfold post_swipe. rewrite Hs, Ht, Hns, Hnt, Hpair.
  cbn [includes existsb String.eqb Ascii.eqb Bool.eqb negb orb num_strict_eq
       is_string].
  replace (a =? b) with false by (symmetry; apply Z.eqb_neq, Hab).
  reflexivity.
Qed.

(** X4. The race for any two users: when the pair has no row and [matches] has
    no unique key, two reciprocal right swipes that alternate both insert. *)
Lemma race_for_any_pair (pf : platform) (c1 c2 : response)
      (s t : value) (a b : Z) (d : db) :
  user_id pf s a -> user_id pf t b -> a <> b ->
  unique_pair_key pf = false ->
  find_match d (Z.min a b) (Z.max a b) = None ->
  run_schedule pf alternate
    [mkTask (post_swipe pf s t (VStr "right")) c1;
     mkTask (post_swipe pf t s (VStr "right")) c2] d
  = ([mkTask (Ret (json200 (new_match (Some (next_match d))))) c1;
      mkTask (Ret (json200 (new_match (Some (next_match d + 1))))) c2],
     add_match
       (add_match (add_swipe (add_swipe d a b right_) b a right_)
                  (Z.min a b) (Z.max a b))
       (Z.min a b) (Z.max a b)).
Proof.
  intros Hs Ht Hab Hkey Hfind.
  assert (Hba : b <> a) by congruence.
  rewrite (post_swipe_right_valid pf s t a b Hs Ht Hab).
  rewrite (post_swipe_right_valid pf t s b a Ht Hs Hba).
  rewrite (Z.min_comm b a), (Z.max_comm b a).
  destruct Hs as (_ & _ & Hqs), Ht as (_ & _ & Hqt).
  apply find_match_none in Hfind.
  assert (E1 : existsb (swipe_where (Some b) (Some a) (Some right_))
                 (swipes (add_swipe (add_swipe d a b right_) b a right_)) = true).
  { cbn [swipes add_swipe]. rewrite !existsb_snoc.
    unfold swipe_where at 3. cbn. rewrite !Z.eqb_refl. apply orb_true_r. }
  assert (E2 : existsb (swipe_where (Some a) (Some b) (Some right_))
                 (swipes (add_swipe (add_swipe d a b right_) b a right_)) = true).
  { cbn [swipes add_swipe]. rewrite !existsb_snoc.
    unfold swipe_where at 2. cbn. rewrite !Z.eqb_refl.
    rewrite orb_true_r. reflexivity. }
  unfold alternate.
  cbn [run_schedule step_nth]. rewrite step_getQuery. cbn [exec].
  rewrite Hqs, Hqt. cbn [sqlDir String.eqb Ascii.eqb Bool.eqb].
  rewrite step_getQuery. cbn [exec].
  rewrite Hqs, Hqt. cbn [sqlDir String.eqb Ascii.eqb Bool.eqb].
  rewrite step_getQuery. cbn [exec rows_of]. rewrite Hqs, Hqt.
  rewrite has_rows_firstn. cbn [sqlDir String.eqb Ascii.eqb Bool.eqb].
  rewrite E1.
  rewrite step_getQuery. cbn [exec rows_of]. rewrite Hqs, Hqt.
  rewrite has_rows_firstn. cbn [sqlDir String.eqb Ascii.eqb Bool.eqb].
  rewrite E2.
  rewrite step_getQuery. cbn [exec rows_of sqlNumber].
  rewrite has_rows_firstn. cbn [matches add_swipe]. rewrite Hfind. cbn [negb].
  rewrite step_getQuery. cbn [exec rows_of sqlNumber].
  rewrite has_rows_firstn. cbn [matches add_swipe]. rewrite Hfind. cbn [negb].
  rewrite step_getQuery. cbn [exec sqlNumber matches add_swipe].
  rewrite Hkey. cbn [andb].
  rewrite step_getQuery. cbn [exec sqlNumber].
  rewrite Hkey. cbn [andb]. reflexivity.
Qed.


(** ** The scenarios of the chat *)

(** User 7 is no participant of match 1 and is refused; 5 and 9 read the
    two messages, in the order they were posted when ORDER BY is stable. *)
Example scenario_chat :
  response_of (run plain get_messages_catch
                   (get_messages (VNum 1) (VNum 7)) (chat plain)) = forbidden
  /\ (exists rows,
        response_of (run plain get_messages_catch
                         (get_messages (VNum 1) (VNum 9)) (chat plain))
        = mkResponse 200 (MessageList rows)
        /\ map o_content rows = [VStr "hi"; VStr "hello"]
        /\ map o_sender_id rows = [5; 9])
  /\ response_of (run plain post_messages_catch
                      (post_messages (VNum 1) (VNum 7) (VStr "hey")) (chat plain))
     = forbidden.
Proof.
  split; [reflexivity |]. split; [| reflexivity].
  eexists. split; [vm_compute; reflexivity |]. split; reflexivity.
Qed.

(** When the clock has moved between the two messages, any store that
    honours the ORDER BY returns them in the order they were posted. *)
Example scenario_chat_spaced :
  exists rows,
    response_of (run unstable get_messages_catch
                     (get_messages (VNum 1) (VNum 9)) (chat_spaced unstable))
    = mkResponse 200 (MessageList rows)
    /\ map o_content rows = [VStr "hi"; VStr "hello"]
    /\ map o_sent_at rows = [0; 1].
Proof.
  eexists. split; [vm_compute; reflexivity |]. split; reflexivity.
Qed.

(** ** Posting and reading messages *)

(** X6. A participant's message is appended, stamped by the store, and
    answered 201 with its key. *)
Theorem post_messages_appends (pf : platform) (catch : response)
        (matchId senderId content_ : value) (mi si : Z) (d : db) :
  sqlInt pf matchId = Some mi -> sqlInt pf senderId = Some si ->
  truthy matchId = true -> truthy senderId = true -> truthy content_ = true ->
  authorize d mi si ->
  run pf catch (post_messages matchId senderId content_) d
  = (sent (next_message d), add_message d mi si content_,
     [SelectMatchMember matchId senderId senderId;
      InsertMessage matchId senderId content_])
  /\ messages (add_message d mi si content_)
     = (messages d ++ [mkMessage (next_message d) mi si content_ (clock d)])%list
  /\ swipes (add_message d mi si content_) = swipes d
  /\ matches (add_message d mi si content_) = matches d.
Proof.
  intros Hm Hs Htm Hts Htc Hauth.
  assert (Hb : is_member pf d matchId senderId = true)
    by (eapply is_member_authorize; eassumption).
  split; [| repeat split].
  unfold run, post_messages. rewrite Htm, Hts, Htc. cbn [negb orb].
  rewrite eval_userInMatch, Hb. cbn [negb].
  rewrite eval_getQuery. cbn [exec]. rewrite Hm, Hs. reflexivity.
Qed.

Lemma post_messages_appends_witness :
  run plain post_messages_catch
      (post_messages (VNum 1) (VNum 9) (VStr "hello")) matched_5_9
  = (sent (next_message matched_5_9),
     add_message matched_5_9 1 9 (VStr "hello"),
     [SelectMatchMember (VNum 1) (VNum 9) (VNum 9);
      InsertMessage (VNum 1) (VNum 9) (VStr "hello")])
  /\ messages (add_message matched_5_9 1 9 (VStr "hello"))
     = (messages matched_5_9
        ++ [mkMessage (next_message matched_5_9) 1 9 (VStr "hello")
                      (clock matched_5_9)])%list
  /\ swipes (add_message matched_5_9 1 9 (VStr "hello")) = swipes matched_5_9
  /\ matches (add_message matched_5_9 1 9 (VStr "hello")) = matches matched_5_9.
Proof.
  apply (post_messages_appends plain post_messages_catch
           (VNum 1) (VNum 9) (VStr "hello") 1 9 matched_5_9);
    try reflexivity.
  exists (mkMatch 1 5 9).
  split; [left; reflexivity |]. split; [reflexivity | right; reflexivity].
Defined.

Lemma eval_userInMatch_trace (pf : platform) (A : Type) (matchId userId : value)
      (k : bool -> prog A) (d : db) :
  exists rest,
    snd (eval pf (allowed <- userInMatch matchId userId ;; k allowed) d)
    = SelectMatchMember matchId userId userId :: rest.
Proof.
  rewrite eval_userInMatch.
  destruct (eval pf (k _) d) as [[a d'] t]. eexists. reflexivity.
Qed.

Lemma run_trace (pf : platform) (catch : response) (p : prog response) (d : db) :
  trace_of (run pf catch p d) = snd (eval pf p d).
Proof.
  unfold run, trace_of. destruct (eval pf p d) as [[[r |] d'] t]; reflexivity.
Qed.

(** X5. Both chat endpoints test presence by truthiness, before the guard and
    before any statement: the 400 is the answer exactly when a field is
    falsy, an empty [content] included. *)
Theorem chat_presence (pf : platform) (catch : response)
        (matchId userId content_ : value) (d : db) :
  (run pf catch (get_messages matchId userId) d = (fields_required_get, d, [])
   <-> truthy matchId = false \/ truthy userId = false)
  /\ (run pf catch (post_messages matchId userId content_) d
      = (fields_required_post, d, [])
      <-> truthy matchId = false \/ truthy userId = false
          \/ truthy content_ = false)
  /\ truthy (VStr "") = false.
Proof.
  split; [| split; [| reflexivity]].
  - split.
    + intros Hrun.
      destruct (truthy matchId) eqn:Hm; [| now left].
      destruct (truthy userId) eqn:Hu; [| now right].
      exfalso.
      assert (Ht : trace_of (run pf catch (get_messages matchId userId) d) = [])
        by (rewrite Hrun; reflexivity).
      rewrite run_trace in Ht. unfold get_messages in Ht.
      rewrite Hm, Hu in Ht. cbn [negb orb] in Ht.
      destruct (eval_userInMatch_trace pf response matchId userId
                  (fun allowed =>
                     if negb allowed
                     then Ret (mkResponse 403 (Message "Geen toegang tot deze match."))
                     else rows <- getQuery (SelectMessages matchId) ;;
                          Ret (json200 (MessageList (message_rows_of rows))))
                  d) as [rest Hrest].
      rewrite Hrest in Ht. discriminate Ht.
    + intros H. unfold run, get_messages.
      assert (Hc : negb (truthy matchId) || negb (truthy userId) = true)
        by (destruct H as [-> | ->]; [reflexivity | apply orb_true_r]).
      rewrite Hc. reflexivity.
  - split.
    + intros Hrun.
      destruct (truthy matchId) eqn:Hm; [| now left].
      destruct (truthy userId) eqn:Hu; [| now right; left].
      destruct (truthy content_) eqn:Hc; [| now right; right].
      exfalso.
      assert (Ht : trace_of (run pf catch
                               (post_messages matchId userId content_) d) = [])
        by (rewrite Hrun; reflexivity).
      rewrite run_trace in Ht. unfold post_messages in Ht.
      rewrite Hm, Hu, Hc in Ht. cbn [negb orb] in Ht.
      destruct (eval_userInMatch_trace pf response matchId userId
                  (fun allowed =>
                     if negb allowed
                     then Ret (mkResponse 403 (Message "Geen toegang tot deze match."))
                     else result_ <- getQuery (InsertMessage matchId userId content_) ;;
                          Ret (mkResponse 201 (SentBody "Bericht verstuurd."
                                                        (insertId_of result_))))
                  d) as [rest Hrest].
      rewrite Hrest in Ht. discriminate Ht.
    + intros H. unfold run, post_messages.
      assert (Hc : negb (truthy matchId) || negb (truthy userId)
                   || negb (truthy content_) = true).
      { destruct H as [-> | [-> | ->]];
          [reflexivity | apply orb_true_iff; left; apply orb_true_r
           | apply orb_true_r]. }
      rewrite Hc. reflexivity.
Qed.

(** ** What [POST /swipe] can do to the store *)

Lemma run_getQuery (pf : platform) (catch : response) (q : query)
      (k : result -> prog response) (d : db) :
  run pf catch (r <- getQuery q ;; k r) d
  = match exec pf d q with
    | (Some r, d') =>
        let '(resp, d'', t) := run pf catch (k r) d' in (resp, d'', q :: t)
    | (None, d') => (catch, d', [q])
    end.
Proof.
  unfold run. rewrite eval_getQuery.
  destruct (exec pf d q) as [[r |] d']; [| reflexivity].
  destruct (eval pf (k r) d') as [[[resp |] d''] t]; reflexivity.
Qed.

Lemma post_swipe_runs (pf : platform) (catch : response)
      (s t dir : value) (d : db) :
  let r := run pf catch (post_swipe pf s t dir) d in
  swipe_run catch d (response_of r) (db_of r) (trace_of r).
Proof.
  unfold post_swipe.
  destruct (negb (truthy s) || negb (truthy t)
            || negb (includes ["left"; "right"] dir));
    [apply sr_rejected; reflexivity |].
  destruct (num_strict_eq (Number pf s) (Number pf t)) eqn:Hne;
    [apply sr_rejected; reflexivity |].
  rewrite run_getQuery. cbn [exec].
  destruct (sqlInt pf s) as [a |]; [| apply sr_not_recorded].
  destruct (sqlInt pf t) as [b |]; [| apply sr_not_recorded].
  destruct (sqlDir dir) as [c |] eqn:Hdir; [| apply sr_not_recorded].
  destruct (is_string dir "right") eqn:Hright;
    [| apply sr_recorded; left; reflexivity].
  assert (Hc : c = right_).
  { destruct dir as [| | ? | ? | str]; try discriminate Hright.
    simpl in Hright, Hdir. apply String.eqb_eq in Hright. subst str.
    simpl in Hdir. congruence. }
  subst c.
  rewrite run_getQuery. cbn [exec rows_of].
  destruct (has_rows _); [| apply sr_recorded; left; reflexivity].
  destruct (orderPair pf s t) as [n1 n2] eqn:Hop.
  rewrite run_getQuery. cbn [exec].
  destruct n1 as [| u1]; [apply sr_recorded; right; right; reflexivity |].
  destruct n2 as [| u2]; [apply sr_recorded; right; right; reflexivity |].
  cbn [sqlNumber rows_of]. rewrite has_rows_firstn. cbn [matches add_swipe].
  destruct (existsb (pair_where u1 u2) (matches d)) eqn:Hex;
    [apply sr_recorded; right; left; reflexivity |].
  cbn [negb]. rewrite run_getQuery. cbn [exec sqlNumber matches add_swipe].
  rewrite Hex, andb_false_r.
  apply sr_matched; [| exact Hex].
  eapply orderPair_lt; eassumption.
Qed.

(** X1. Whatever the request, [POST /swipe] only appends: at most one row to
    the ledger and at most one row to [matches], the latter with the
    smaller id first and only together with the 200 answer that carries
    its key; [messages] is not touched; and a 400 leaves the store as it
    was, with no statement sent. *)
Theorem post_swipe_only_appends (pf : platform) (s t dir : value) (d : db) :
  let r := run pf post_swipe_catch (post_swipe pf s t dir) d in
  (status (response_of r) = 400 -> db_of r = d /\ trace_of r = [])
  /\ messages (db_of r) = messages d
  /\ (exists new, swipes (db_of r) = (swipes d ++ new)%list
                  /\ (List.length new <= 1)%nat)
  /\ (matches (db_of r) = matches d
      \/ exists u1 u2,
          u1 < u2
          /\ matches (db_of r)
             = (matches d ++ [mkMatch (next_match d) u1 u2])%list
          /\ response_of r = json200 (new_match (Some (next_match d)))).
Proof.
  intros r. pose proof (post_swipe_runs pf post_swipe_catch s t dir d) as H.
  cbv zeta in H. fold r in H.
  destruct H as [resp Hst | q | a b c resp tr Hresp | a b u1 u2 tr Hlt Hex].
  - repeat split; try reflexivity.
    + exists []. rewrite app_nil_r. split; [reflexivity | simpl; lia].
    + left. reflexivity.
  - repeat split; try discriminate.
    + exists []. rewrite app_nil_r. split; [reflexivity | simpl; lia].
    + left. reflexivity.
  - split; [| split; [reflexivity | split]].
    + intros H400. destruct Hresp as [-> | [-> | ->]]; discriminate H400.
    + eexists. split; [reflexivity | simpl; lia].
    + left. reflexivity.
  - split; [discriminate |]. split; [reflexivity |]. split.
    + eexists. split; [reflexivity | simpl; lia].
    + right. exists u1, u2. repeat split. exact Hlt.
Qed.

(** ** From a swipe to the chat *)

(** X2. A valid swipe changes [matches] only on the outcome NewMatch, that is
    for a right swipe that finds the reverse right swipe and no row for the
    pair; then it appends the one row (key, smaller id, larger id). *)
Theorem match_only_on_reciprocity (pf : platform) (catch : response)
        (s t direction : value) (a b : Z) (c : dir) (d : db) :
  user_id pf s a -> user_id pf t b -> a <> b ->
  (c = left_ /\ direction = VStr "left")
  \/ (c = right_ /\ direction = VStr "right") ->
  matches (db_of (run pf catch (post_swipe pf s t direction) d))
  = match onSwipe d a b c with
    | NewMatch i => (matches d ++ [mkMatch i (Z.min a b) (Z.max a b)])%list
    | _ => matches d
    end.
Proof.
  intros Hs Ht Hab [[-> ->] | [-> ->]].
  - rewrite (run_post_swipe_left pf catch s t a b d Hs Ht Hab). reflexivity.
  - rewrite (run_post_swipe_right pf catch s t a b d Hs Ht Hab).
    unfold onSwipe.
    destruct (hasReciprocalRight d a b);
      [destruct (find_match d (Z.min a b) (Z.max a b)) |]; reflexivity.
Qed.

Lemma match_only_on_reciprocity_witness :
  let d := mkDb [mkSwipe 1 5 9 right_] [] [] 2 1 1 0 in
  matches (db_of (run plain post_swipe_catch
                      (post_swipe plain (VNum 9) (VNum 5) (VStr "right")) d))
  = match onSwipe d 9 5 right_ with
    | NewMatch i => (matches d ++ [mkMatch i (Z.min 9 5) (Z.max 9 5)])%list
    | _ => matches d
    end.
Proof.
  intros d.
  apply (match_only_on_reciprocity plain post_swipe_catch (VNum 9) (VNum 5)
           (VStr "right") 9 5 right_ d).
  - apply user_id_num. lia.
  - apply user_id_num. lia.
  - lia.
  - right. split; reflexivity.
Defined.

Lemma is_member_snoc (pf : platform) (d : db) (u1 u2 : Z) (m w : value) (wi : Z) :
  sqlInt pf m = Some (next_match d) -> sqlInt pf w = Some wi ->
  match_ids_fresh d ->
  is_member pf (add_match d u1 u2) m w = (wi =? u1) || (wi =? u2).
Proof.
  intros Hm Hw Hfresh. unfold is_member. rewrite Hm, Hw.
  cbn [matches add_match]. rewrite existsb_snoc.
  replace (existsb _ (matches d)) with false.
  - unfold member_where, int_is. cbn. rewrite Z.eqb_refl.
    rewrite (Z.eqb_sym u1 wi), (Z.eqb_sym u2 wi). reflexivity.
  - symmetry. apply not_true_iff_false. intros H.
    apply existsb_exists in H as (x & Hin & Hx).
    unfold match_ids_fresh in Hfresh. rewrite Forall_forall in Hfresh.
    specialize (Hfresh x Hin).
    unfold member_where, int_is in Hx.
    apply andb_true_iff in Hx as [Hx _]. apply Z.eqb_eq in Hx. lia.
Qed.

(** X3. Once a swipe has made the match, its key opens the chat to the two
    users and to nobody else: [userInMatch] on the [matchId] of the answer
    is true for the swiper and for the target, and false for every other
    user. *)
Theorem new_match_opens_chat (pf : platform) (catch : response)
        (s t w : value) (a b wi : Z) (d : db) :
  user_id pf s a -> user_id pf t b -> a <> b ->
  hasReciprocalRight d a b = true ->
  find_match d (Z.min a b) (Z.max a b) = None ->
  match_ids_fresh d ->
  sqlInt pf w = Some wi ->
  let r := run pf catch (post_swipe pf s t (VStr "right")) d in
  exists i,
    matchId_of (response_of r) = Some i
    /\ fst (fst (eval pf (userInMatch (VNum i) s) (db_of r))) = Some true
    /\ fst (fst (eval pf (userInMatch (VNum i) t) (db_of r))) = Some true
    /\ (fst (fst (eval pf (userInMatch (VNum i) w) (db_of r))) = Some true
        <-> wi = a \/ wi = b).
Proof.
  intros Hs Ht Hab Hrec Hfind Hfresh Hw r. subst r.
  rewrite (run_post_swipe_right pf catch s t a b d Hs Ht Hab), Hrec, Hfind.
  exists (next_match d). split; [reflexivity |].
  assert (Hmem : forall v vi, sqlInt pf v = Some vi ->
            fst (fst (eval pf (userInMatch (VNum (next_match d)) v)
                       (add_match (add_swipe d a b right_) (Z.min a b) (Z.max a b))))
            = Some ((vi =? Z.min a b) || (vi =? Z.max a b))).
  { intros v vi Hv. unfold userInMatch, getQuery.
    cbn [bind eval exec rows_of fst]. rewrite has_rows_firstn.
    change (existsb _ _) with
      (is_member pf (add_match (add_swipe d a b right_) (Z.min a b) (Z.max a b))
                 (VNum (next_match d)) v).
    rewrite (is_member_snoc pf (add_swipe d a b right_) _ _ _ v vi);
      [reflexivity | reflexivity | exact Hv | exact Hfresh]. }
  destruct Hs as (_ & _ & Hqs), Ht as (_ & _ & Hqt).
  cbn [db_of fst snd].
  rewrite (Hmem s a Hqs), (Hmem t b Hqt), (Hmem w wi Hw).
  split; [f_equal; lia |]. split; [f_equal; lia |].
  split.
  - intros H. injection H as H. lia.
  - intros H. f_equal. lia.
Qed.

Lemma new_match_opens_chat_witness :
  let d := mkDb [mkSwipe 1 5 9 right_] [] [] 2 1 1 0 in
  let r := run plain post_swipe_catch
               (post_swipe plain (VNum 9) (VNum 5) (VStr "right")) d in
  exists i,
    matchId_of (response_of r) = Some i
    /\ fst (fst (eval plain (userInMatch (VNum i) (VNum 9)) (db_of r))) = Some true
    /\ fst (fst (eval plain (userInMatch (VNum i) (VNum 5)) (db_of r))) = Some true
    /\ (fst (fst (eval plain (userInMatch (VNum i) (VNum 7)) (db_of r))) = Some true
        <-> 7 = 9 \/ 7 = 5).
Proof.
  intros d.
  apply (new_match_opens_chat plain post_swipe_catch (VNum 9) (VNum 5) (VNum 7)
           9 5 7 d).
  - apply user_id_num. lia.
  - apply user_id_num. lia.
  - lia.
  - reflexivity.
  - reflexivity.
  - constructor.
  - reflexivity.
Defined.

(** ** Invariants of the chat *)

Lemma authorize_grows (d d' : db) (mi ui : Z) :
  (forall m, In m (matches d) -> In m (matches d')) ->
  authorize d mi ui -> authorize d' mi ui.
Proof. intros Hsub (m & Hin & H). exists m. split; [apply Hsub, Hin | exact H]. Qed.

Lemma senders_participate_grows (d d' : db) :
  messages d' = messages d ->
  (forall m, In m (matches d) -> In m (matches d')) ->
  senders_participate d -> senders_participate d'.
Proof.
  intros Hmsg Hsub H. unfold senders_participate in *. rewrite Hmsg.
  eapply Forall_impl; [| exact H].
  intros m Hm. eapply authorize_grows; eassumption.
Qed.

Lemma is_member_some (pf : platform) (d : db) (m u : value) :
  is_member pf d m u = true ->
  exists mi ui, sqlInt pf m = Some mi /\ sqlInt pf u = Some ui.
Proof.
  unfold is_member. intros H. apply existsb_exists in H as (x & _ & Hx).
  unfold member_where in Hx.
  destruct (sqlInt pf m) as [mi |]; [| discriminate Hx].
  destruct (sqlInt pf u) as [ui |]; [eauto |].
  simpl in Hx. rewrite andb_false_r in Hx. discriminate Hx.
Qed.

Lemma post_messages_effect (pf : platform) (catch : response)
      (m s c : value) (d : db) :
  let d' := db_of (run pf catch (post_messages m s c) d) in
  d' = d
  \/ exists mi si, authorize d mi si /\ d' = add_message d mi si c.
Proof.
  cbv zeta. rewrite db_of_run. unfold post_messages.
  destruct (negb (truthy m) || negb (truthy s) || negb (truthy c));
    [left; reflexivity |].
  rewrite db_after_userInMatch.
  destruct (is_member pf d m s) eqn:Hb; [| left; reflexivity].
  cbn [negb]. rewrite db_after_getQuery. cbn [exec].
  destruct (is_member_some pf d m s Hb) as (mi & si & Hm & Hs).
  rewrite Hm, Hs. right. exists mi, si. split; [| reflexivity].
  eapply is_member_authorize; eassumption.
Qed.

(** X8. Every message in the log was sent by a participant of its match: the
    three handlers of swiping and chatting keep this, whatever the
    requests. *)
Theorem senders_stay_participants (pf : platform) (d : db) :
  senders_participate d ->
  (forall catch s t dir,
      senders_participate (db_of (run pf catch (post_swipe pf s t dir) d)))
  /\ (forall catch m u,
        senders_participate (db_of (run pf catch (get_messages m u) d)))
  /\ (forall catch m u c,
        senders_participate (db_of (run pf catch (post_messages m u c) d))).
Proof.
  intros Hinv. split; [| split].
  - intros catch s t dir.
    pose proof (post_swipe_runs pf catch s t dir d) as H. cbv zeta in H.
    destruct H as [resp Hst | q | a b c resp tr Hresp | a b u1 u2 tr Hlt Hex];
      try exact Hinv.
    apply (senders_participate_grows d); [reflexivity | | exact Hinv].
    intros x Hx. cbn [matches add_match add_swipe].
    apply in_or_app. left. exact Hx.
  - intros catch m u. rewrite get_messages_reads. exact Hinv.
  - intros catch m u c.
    destruct (post_messages_effect pf catch m u c d) as [-> | (mi & si & Ha & ->)];
      [exact Hinv |].
    unfold senders_participate. cbn [messages matches add_message].
    apply Forall_app. split.
    + eapply Forall_impl; [| exact Hinv].
      intros x Hx. eapply authorize_grows; [| exact Hx]. auto.
    + constructor; [| constructor]. simpl.
      eapply authorize_grows; [| exact Ha]. auto.
Qed.

Lemma senders_stay_participants_witness :
  (forall catch s t dir,
      senders_participate
        (db_of (run plain catch (post_swipe plain s t dir) (chat plain))))
  /\ (forall catch m u,
        senders_participate
          (db_of (run plain catch (get_messages m u) (chat plain))))
  /\ (forall catch m u c,
        senders_participate
          (db_of (run plain catch (post_messages m u c) (chat plain)))).
Proof.
  apply (senders_stay_participants plain (chat plain)).
  constructor.
  - exists (mkMatch 1 5 9).
    split; [left; reflexivity |]. split; [reflexivity | left; reflexivity].
  - constructor; [| constructor].
    exists (mkMatch 1 5 9).
    split; [left; reflexivity |]. split; [reflexivity | right; reflexivity].
Defined.

(** ** Deleting a user *)

Lemma run_delete_admin_user (pf : platform) (catch : response)
      (u : value) (d : db) :
  truthy u = true ->
  run pf catch (delete_admin_user u) d
  = (user_deleted,
     mkDb (filter (fun r => negb (int_is (swiper_id r) (sqlInt pf u)
                                 || int_is (target_id r) (sqlInt pf u)))
                  (swipes d))
          (filter (fun m => negb (int_is (user1_id m) (sqlInt pf u)
                                 || int_is (user2_id m) (sqlInt pf u)))
                  (matches d))
          (filter (fun m => negb (int_is (sender_id m) (sqlInt pf u)))
                  (messages d))
          (next_swipe d) (next_match d) (next_message d) (clock d),
     delete_trace u).
Proof.
  intros Ht. unfold run, delete_admin_user. rewrite Ht. reflexivity.
Qed.

(** X9. [DELETE /admin/user/:id] answers 200 and removes exactly the rows that
    name the user: the swipes the user made or received, the matches the
    user is part of, and the messages the user sent.  Every other row is
    kept. *)
Theorem delete_removes_the_user (pf : platform) (catch : response)
        (u : value) (x : Z) (d : db) :
  truthy u = true -> sqlInt pf u = Some x ->
  let r := run pf catch (delete_admin_user u) d in
  response_of r = user_deleted
  /\ trace_of r = delete_trace u
  /\ (forall row, In row (swipes (db_of r))
                  <-> In row (swipes d) /\ ~ swipe_mentions x row)
  /\ (forall m, In m (matches (db_of r))
                <-> In m (matches d) /\ ~ match_mentions x m)
  /\ (forall msg, In msg (messages (db_of r))
                  <-> In msg (messages d) /\ sender_id msg <> x).
Proof.
  intros Ht Hx r. subst r. rewrite (run_delete_admin_user pf catch u d Ht), Hx.
  cbn [response_of db_of trace_of fst snd swipes matches messages].
  split; [reflexivity |]. split; [reflexivity |].
  unfold swipe_mentions, match_mentions, int_is.
  split; [| split]; intros row; rewrite filter_In;
    (split; intros [Hin H]; (split; [exact Hin |])).
  - apply negb_true_iff, orb_false_iff in H. lia.
  - apply negb_true_iff, orb_false_iff. lia.
  - apply negb_true_iff, orb_false_iff in H. lia.
  - apply negb_true_iff, orb_false_iff. lia.
  - apply negb_true_iff in H. lia.
  - apply negb_true_iff. lia.
Qed.

Lemma delete_removes_the_user_witness :
  let r := run plain delete_admin_user_catch
               (delete_admin_user (VStr "5")) (chat plain) in
  response_of r = user_deleted
  /\ trace_of r = delete_trace (VStr "5")
  /\ (forall row, In row (swipes (db_of r))
                  <-> In row (swipes (chat plain)) /\ ~ swipe_mentions 5 row)
  /\ (forall m, In m (matches (db_of r))
                <-> In m (matches (chat plain)) /\ ~ match_mentions 5 m)
  /\ (forall msg, In msg (messages (db_of r))
                  <-> In msg (messages (chat plain)) /\ sender_id msg <> 5).
Proof.
  apply (delete_removes_the_user plain delete_admin_user_catch (VStr "5") 5
           (chat plain)); reflexivity.
Defined.

Lemma filter_all (A : Type) (p : A -> bool) (l : list A) :
  (forall x, In x l -> p x = true) -> filter p l = l.
Proof.
  induction l as [| x l IH]; intros H; simpl; [reflexivity |].
  rewrite (H x (or_introl eq_refl)). f_equal. apply IH.
  intros y Hy. apply H. right. exact Hy.
Qed.

(** X10. The handler does not look the user up: for an id that no row names, or
    that the store does not read as an integer, it still answers 200
    "Gebruiker verwijderd." and leaves the tables as they were. *)
Theorem delete_unknown_user (pf : platform) (catch : response)
        (u : value) (d : db) :
  truthy u = true ->
  (forall x, sqlInt pf u = Some x ->
     (forall row, In row (swipes d) -> ~ swipe_mentions x row)
     /\ (forall m, In m (matches d) -> ~ match_mentions x m)
     /\ (forall msg, In msg (messages d) -> sender_id msg <> x)) ->
  run pf catch (delete_admin_user u) d = (user_deleted, d, delete_trace u).
Proof.
  intros Ht Hnone. rewrite (run_delete_admin_user pf catch u d Ht).
  destruct d as [sw ma me ns nm nmsg cl].
  cbn [swipes matches messages next_swipe next_match next_message clock] in *.
  unfold swipe_mentions, match_mentions in Hnone.
  destruct (sqlInt pf u) as [x |].
  - destruct (Hnone x eq_refl) as (Hsw & Hma & Hme).
    rewrite !filter_all; [reflexivity | | |].
    + intros m Hm. specialize (Hme m Hm). simpl. apply negb_true_iff. lia.
    + intros m Hm. specialize (Hma m Hm). simpl.
      apply negb_true_iff, orb_false_iff. lia.
    + intros r Hr. specialize (Hsw r Hr). simpl.
      apply negb_true_iff, orb_false_iff. lia.
  - rewrite !filter_all; [reflexivity | | |]; intros; reflexivity.
Qed.

Lemma delete_unknown_user_witness :
  run plain delete_admin_user_catch (delete_admin_user (VStr "7")) (chat plain)
  = (user_deleted, chat plain, delete_trace (VStr "7")).
Proof.
  apply (delete_unknown_user plain delete_admin_user_catch (VStr "7")
           (chat plain)); [reflexivity |].
  intros x Hx. injection Hx as <-.
  repeat split; vm_compute; intros ? H;
    repeat (destruct H as [H | H]; [subst; simpl; intuition congruence |]);
    try contradiction.
Defined.

(** X11. Deleting a user leaves the other participant's messages in the log:
    a message that someone else sent in one of the user's matches is still
    there afterwards, while its match is gone. *)
Theorem delete_orphans_messages (pf : platform) (catch : response)
        (u : value) (x : Z) (d : db) (m : match_row) (msg : message_row) :
  truthy u = true -> sqlInt pf u = Some x ->
  match_ids_distinct d ->
  In m (matches d) -> match_mentions x m ->
  In msg (messages d) -> match_id msg = m_id m -> sender_id msg <> x ->
  let d' := db_of (run pf catch (delete_admin_user u) d) in
  In msg (messages d')
  /\ (forall m', In m' (matches d') -> m_id m' <> match_id msg)
  /\ ~ authorize d' (match_id msg) (sender_id msg).
Proof.
  intros Ht Hx Hnd Hm Hmx Hmsg Hid Hsender d'. subst d'.
  rewrite (run_delete_admin_user pf catch u d Ht), Hx.
  cbn [db_of fst snd messages matches].
  assert (Hgone : forall m', In m' (filter (fun m0 =>
             negb (int_is (user1_id m0) (Some x) || int_is (user2_id m0) (Some x)))
             (matches d)) -> m_id m' <> match_id msg).
  { intros m' Hin Heq. apply filter_In in Hin as [Hin Hkeep].
    assert (m' = m).
    { unfold match_ids_distinct in Hnd. rewrite Hid in Heq. clear - Hnd Hin Hm Heq.
      induction (matches d) as [| y l IH]; [contradiction |].
      simpl in Hnd. inversion Hnd as [| ? ? Hnin Hnd']; subst.
      destruct Hin as [-> | Hin], Hm as [-> | Hm]; auto.
      - exfalso. apply Hnin. rewrite Heq. apply in_map, Hm.
      - exfalso. apply Hnin. rewrite <- Heq. apply in_map, Hin. }
    subst m'. unfold match_mentions in Hmx. unfold int_is in Hkeep.
    apply negb_true_iff, orb_false_iff in Hkeep. lia. }
  split; [| split].
  - apply filter_In. split; [exact Hmsg |].
    unfold int_is. apply negb_true_iff. lia.
  - exact Hgone.
  - intros (m' & Hin & Heq & _). exact (Hgone m' Hin Heq).
Qed.

Lemma delete_orphans_messages_witness :
  let d' := db_of (run plain delete_admin_user_catch
                       (delete_admin_user (VStr "5")) (chat plain)) in
  let msg := mkMessage 2 1 9 (VStr "hello") 0 in
  In msg (messages d')
  /\ (forall m', In m' (matches d') -> m_id m' <> match_id msg)
  /\ ~ authorize d' (match_id msg) (sender_id msg).
Proof.
  apply (delete_orphans_messages plain delete_admin_user_catch (VStr "5") 5
           (chat plain) (mkMatch 1 5 9) (mkMessage 2 1 9 (VStr "hello") 0)).
  - reflexivity.
  - reflexivity.
  - constructor; [intros [] | constructor].
  - left. reflexivity.
  - left. reflexivity.
  - right. left. reflexivity.
  - reflexivity.
  - simpl. lia.
Defined.

(** ** Posting, then reading *)

Lemma listed_member (pf : platform) (d : db) (m u : value) (mi ui : Z) :
  sqlInt pf m = Some mi -> sqlInt pf u = Some ui ->
  truthy m = true -> truthy u = true -> authorize d mi ui ->
  listed pf d m u
  = map out_of (order_by_sent_at pf (filter (of_match mi) (messages d))).
Proof.
  intros Hm Hu Htm Htu Hauth.
  assert (Hb : is_member pf d m u = true)
    by (eapply is_member_authorize; eassumption).
  unfold listed, run, get_messages. rewrite Htm, Htu. cbn [negb orb].
  rewrite eval_userInMatch, Hb. cbn [negb].
  rewrite eval_getQuery. cbn [exec]. rewrite Hm. reflexivity.
Qed.

Lemma listed_in (pf : platform) (d : db) (m u : value) (mi ui : Z)
      (o : message_out) :
  order_by_contract pf ->
  sqlInt pf m = Some mi -> sqlInt pf u = Some ui ->
  truthy m = true -> truthy u = true -> authorize d mi ui ->
  In o (listed pf d m u)
  <-> exists msg, In msg (messages d) /\ match_id msg = mi /\ out_of msg = o.
Proof.
  intros Hc Hm Hu Htm Htu Hauth.
  rewrite (listed_member pf d m u mi ui Hm Hu Htm Htu Hauth), in_map_iff.
  destruct (Hc (filter (of_match mi) (messages d))) as [Hperm _].
  split.
  - intros (msg & Ho & Hin). exists msg.
    apply (Permutation_in _ (Permutation_sym Hperm)) in Hin.
    apply filter_In in Hin as [Hin Hof]. apply Z.eqb_eq in Hof. auto.
  - intros (msg & Hin & Hmi & Ho). exists msg. split; [exact Ho |].
    apply (Permutation_in _ Hperm). apply filter_In. split; [exact Hin |].
    apply Z.eqb_eq, Hmi.
Qed.

(** X7. What a participant posts, each participant reads: after a successful
    [POST /messages], [GET /messages] for the match lists the new message
    (its key, sender, content and timestamp) next to the messages it listed
    before, and nothing else. *)
Theorem posted_then_listed (pf : platform) (catch : response)
        (m s c m' u : value) (mi si ui : Z) (d : db) (o : message_out) :
  order_by_contract pf ->
  sqlInt pf m = Some mi -> sqlInt pf s = Some si ->
  sqlInt pf m' = Some mi -> sqlInt pf u = Some ui ->
  truthy m = true -> truthy s = true -> truthy c = true ->
  truthy m' = true -> truthy u = true ->
  authorize d mi si -> authorize d mi ui ->
  let d' := db_of (run pf catch (post_messages m s c) d) in
  In o (listed pf d' m' u)
  <-> In o (listed pf d m' u) \/ o = mkOut (next_message d) si c (clock d).
Proof.
  intros Hc Hm Hs Hm' Hu Htm Hts Htc Htm' Htu Has Hau d'.
  assert (Hd' : d' = add_message d mi si c).
  { subst d'.
    assert (Hb : is_member pf d m s = true)
      by (eapply is_member_authorize; eassumption).
    rewrite db_of_run. unfold post_messages. rewrite Htm, Hts, Htc.
    cbn [negb orb]. rewrite db_after_userInMatch, Hb. cbn [negb].
    rewrite db_after_getQuery. cbn [exec]. rewrite Hm, Hs. reflexivity. }
  rewrite Hd'.
  rewrite (listed_in pf (add_message d mi si c) m' u mi ui o Hc Hm' Hu Htm' Htu Hau).
  rewrite (listed_in pf d m' u mi ui o Hc Hm' Hu Htm' Htu Hau).
  cbn [messages add_message].
  split.
  - intros (msg & Hin & Hmi & Ho). apply in_app_or in Hin as [Hin | [<- | []]].
    + left. exists msg. auto.
    + right. symmetry. exact Ho.
  - intros [(msg & Hin & Hmi & Ho) | ->].
    + exists msg. split; [apply in_or_app; left; exact Hin | auto].
    + exists (mkMessage (next_message d) mi si c (clock d)).
      split; [apply in_or_app; right; left; reflexivity |].
      split; reflexivity.
Qed.

Lemma posted_then_listed_witness :
  let d' := db_of (run plain post_messages_catch
                       (post_messages (VNum 1) (VNum 9) (VStr "hello"))
                       matched_5_9) in
  In (mkOut 1 9 (VStr "hello") 0) (listed plain d' (VStr "1") (VStr "5"))
  <-> In (mkOut 1 9 (VStr "hello") 0) (listed plain matched_5_9 (VStr "1") (VStr "5"))
      \/ mkOut 1 9 (VStr "hello") 0
         = mkOut (next_message matched_5_9) 9 (VStr "hello") (clock matched_5_9).
Proof.
  assert (Ha : forall w, w = 5 \/ w = 9 -> authorize matched_5_9 1 w).
  { intros w Hw. exists (mkMatch 1 5 9).
    split; [left; reflexivity |]. split; [reflexivity | simpl; lia]. }
  apply (posted_then_listed plain post_messages_catch
           (VNum 1) (VNum 9) (VStr "hello") (VStr "1") (VStr "5") 1 9 5
           matched_5_9
           (mkOut 1 9 (VStr "hello") 0) plain_contract);
    try reflexivity; apply Ha; lia.
Defined.

(** ** The keys of [matches] *)

Lemma match_ids_fresh_distinct (d : db) :
  match_ids_fresh d -> NoDup (map m_id (matches d)) ->
  forall u1 u2, match_ids_fresh (add_match d u1 u2)
                /\ match_ids_distinct (add_match d u1 u2).
Proof.
  intros Hf Hnd u1 u2. unfold match_ids_fresh, match_ids_distinct in *.
  cbn [matches next_match add_match]. split.
  - apply Forall_app. split.
    + eapply Forall_impl; [| exact Hf]. intros m Hm. simpl in Hm. lia.
    + constructor; [simpl; lia | constructor].
  - rewrite map_app. simpl.
    apply (Permutation_NoDup (l := next_match d :: map m_id (matches d)));
      [apply Permutation_cons_append |].
    constructor; [| exact Hnd].
    intros Hin. apply in_map_iff in Hin as (m & Heq & Hin).
    rewrite Forall_forall in Hf. specialize (Hf m Hin). lia.
Qed.

(** Swiping keeps the keys of [matches] below the next key and distinct. *)
Lemma post_swipe_keeps_keys (pf : platform) (catch : response)
      (s t dir : value) (d : db) :
  match_ids_fresh d -> match_ids_distinct d ->
  let d' := db_of (run pf catch (post_swipe pf s t dir) d) in
  match_ids_fresh d' /\ match_ids_distinct d'.
Proof.
  intros Hf Hnd.
  pose proof (post_swipe_runs pf catch s t dir d) as H. cbv zeta in H |- *.
  destruct H as [resp Hst | q | a b c resp tr Hresp | a b u1 u2 tr Hlt Hex];
    try (split; assumption).
  apply (match_ids_fresh_distinct (add_swipe d a b right_)); assumption.
Qed.

Lemma race_for_any_pair_witness :
  run_schedule plain alternate
    [mkTask (post_swipe plain (VNum 7) (VNum 3) (VStr "right")) post_swipe_catch;
     mkTask (post_swipe plain (VNum 3) (VNum 7) (VStr "right")) post_swipe_catch]
    matched_5_9
  = ([mkTask (Ret (json200 (new_match (Some (next_match matched_5_9)))))
             post_swipe_catch;
      mkTask (Ret (json200 (new_match (Some (next_match matched_5_9 + 1)))))
             post_swipe_catch],
     add_match
       (add_match (add_swipe (add_swipe matched_5_9 7 3 right_) 3 7 right_)
                  (Z.min 7 3) (Z.max 7 3))
       (Z.min 7 3) (Z.max 7 3)).
Proof.
  apply (race_for_any_pair plain post_swipe_catch post_swipe_catch
           (VNum 7) (VNum 3) 7 3 matched_5_9).
  - apply user_id_num. lia.
  - apply user_id_num. lia.
  - lia.
  - reflexivity.
  - reflexivity.
Defined.

(** ** The statements of [GET /profiles] and [PUT /update-profile] *)

Lemma defined_false (v : value) : defined v = false -> v = VUndefined.
Proof. destruct v; simpl; congruence. Qed.

(** X12. [GET /profiles] answers 400 exactly when [userId] is falsy; otherwise
    the statement it sends has as many [?] placeholders as parameters,
    between two and six, whatever filters are given, and its first and last
    parameters are [userId] (the caller is excluded, and so are the
    profiles the caller has swiped). *)
Theorem profiles_placeholders (pf : platform)
        (userId gender min_age max_age location : value) :
  match get_profiles pf userId gender min_age max_age location with
  | inl r =>
      truthy userId = false
      /\ r = mkResponse 400 (Message "userId is vereist.")
  | inr st =>
      truthy userId = true
      /\ placeholders (sql st) = List.length (params st)
      /\ (2 <= List.length (params st) <= 6)%nat
      /\ hd_error (params st) = Some (PValue userId)
      /\ last (params st) (PValue VUndefined) = PValue userId
  end.
Proof.
  unfold get_profiles. destruct (truthy userId); [| split; reflexivity].
  cbn [negb]. split; [reflexivity |].
  unfold profiles_statement, add_filter.
  destruct (truthy gender), (truthy min_age), (truthy max_age),
    (truthy location); cbn [sql params app List.length hd_error last];
    (split; [reflexivity | split; [lia | split; reflexivity]]).
Qed.

(** X13. [PUT /update-profile] answers the 400 "userId is vereist." exactly
    when [userId] is falsy, and, with [userId] present, the 400 "Geen
    velden om te updaten." exactly when none of the five fields is given
    ([null] counts as given).  Otherwise it sends a statement with as many
    placeholders as parameters, at least two: one per given field and one
    for the [WHERE id = ?], which is bound to [userId]. *)
Theorem update_profile_placeholders
        (userId username bio gender birthdate location : value) :
  let given := filter defined [username; bio; gender; birthdate; location] in
  let r := put_update_profile userId username bio gender birthdate location in
  match r with
  | inl r =>
      (truthy userId = false
       /\ r = mkResponse 400 (Message "userId is vereist."))
      \/ (truthy userId = true
          /\ username = VUndefined /\ bio = VUndefined /\ gender = VUndefined
          /\ birthdate = VUndefined /\ location = VUndefined
          /\ r = mkResponse 400 (Message "Geen velden om te updaten."))
  | inr st =>
      truthy userId = true
      /\ placeholders (sql st) = List.length (params st)
      /\ List.length (params st)
         = S (List.length (filter defined
                             [username; bio; gender; birthdate; location]))
      /\ last (params st) (PValue VUndefined) = PValue userId
  end
  /\ (truthy userId = false
      <-> r = inl (mkResponse 400 (Message "userId is vereist.")))
  /\ (truthy userId = true /\ given = []
      <-> r = inl (mkResponse 400 (Message "Geen velden om te updaten.")))
  /\ (truthy userId = true /\ given <> []
      <-> exists st,
            r = inr st
            /\ (2 <= List.length (params st))%nat
            /\ params st = (map PValue given ++ [PValue userId])%list
            /\ sql st
               = "UPDATE users SET "
                 ++ String.concat ", "
                      (map snd
                         (filter (fun c => defined (fst c))
                            [(username, "username = ?"); (bio, "bio = ?");
                             (gender, "gender = ?");
                             (birthdate, "birthdate = ?");
                             (location, "location = ?")]))
                 ++ " WHERE id = ?").
Proof.
  cbv zeta.
  unfold put_update_profile, profile_updates, set_column. cbn [filter fst snd map].
  destruct (truthy userId).
  2:{ cbn [negb]. split; [left; split; reflexivity |].
      split; [split; intros _; reflexivity |].
      split; [split; [intros [H _]; discriminate H | discriminate] |].
      split; [intros [H _]; discriminate H |].
      intros (st & H & _). discriminate H. }
  cbn [negb].
  destruct (defined username) eqn:H1, (defined bio) eqn:H2,
    (defined gender) eqn:H3, (defined birthdate) eqn:H4,
    (defined location) eqn:H5;
    cbn [fst snd app List.length Nat.eqb map];
    try (split; [split; [reflexivity | split; [reflexivity | split; reflexivity]] |];
         split; [split; discriminate |];
         split; [split; [intros [_ H]; discriminate H | discriminate] |];
         split; [intros _; eexists; split; [reflexivity |];
                 split; [simpl; lia | split; reflexivity]
                | intros _; split; [reflexivity | discriminate]]).
  apply defined_false in H1, H2, H3, H4, H5. subst.
  split; [right; repeat split |].
  split; [split; discriminate |].
  split; [split; [intros _; reflexivity | intros _; split; reflexivity] |].
  split; [intros [_ H]; exfalso; apply H; reflexivity |].
  intros (st & H & _). discriminate H.
Qed.

Example update_profile_null_is_given :
  put_update_profile (VNum 5) VUndefined VNull VUndefined VUndefined VUndefined
  = inr (mkStatement "UPDATE users SET bio = ? WHERE id = ?"
                     [PValue VNull; PValue (VNum 5)]).
Proof. reflexivity. Qed.

(** X14. No value of the request reaches the text of these statements: the text
    depends only on which filters are truthy, for [GET /profiles], and on
    which fields are given, for [PUT /update-profile]. *)
Theorem statement_text_fixed (pf pf' : platform)
        (u g a b l u' g' a' b' l' : value)
        (i n o e r c i' n' o' e' r' c' : value) :
  truthy g = truthy g' -> truthy a = truthy a' -> truthy b = truthy b' ->
  truthy l = truthy l' ->
  defined n = defined n' -> defined o = defined o' -> defined e = defined e' ->
  defined r = defined r' -> defined c = defined c' ->
  sql (profiles_statement pf u g a b l) = sql (profiles_statement pf' u' g' a' b' l')
  /\ forall st st',
       put_update_profile i n o e r c = inr st ->
       put_update_profile i' n' o' e' r' c' = inr st' ->
       sql st = sql st'.
Proof.
  intros Hg Ha Hb Hl Hn Ho He Hr Hc. split.
  - unfold profiles_statement, add_filter. rewrite Hg, Ha, Hb, Hl.
    destruct (truthy g'), (truthy a'), (truthy b'), (truthy l'); reflexivity.
  - intros st st'. unfold put_update_profile, profile_updates, set_column.
    rewrite Hn, Ho, He, Hr, Hc.
    destruct (truthy i); [| discriminate].
    destruct (truthy i'); [| discriminate].
    destruct (defined n'), (defined o'), (defined e'), (defined r'),
      (defined c'); cbn [negb fst snd app List.length Nat.eqb];
      intros H H'; try discriminate H;
      injection H as <-; injection H' as <-; reflexivity.
Qed.

Lemma statement_text_fixed_witness :
  sql (profiles_statement plain (VStr "5") (VStr "female") VUndefined
                          (VStr "35") (VStr "Gent"))
  = sql (profiles_statement plain (VStr "9") (VStr "x' OR '1'='1") VUndefined
                            (VStr "0; DROP TABLE users") (VStr "%"))
  /\ forall st st',
       put_update_profile (VNum 5) (VStr "an") VUndefined VUndefined
                          VUndefined VNull = inr st ->
       put_update_profile (VNum 9) (VStr "x = 1, is_admin") VUndefined VUndefined
                          VUndefined (VStr "?") = inr st' ->
       sql st = sql st'.
Proof.
  apply (statement_text_fixed plain plain); reflexivity.
Defined.

(** ** Accounts *)

Lemma has_rows_map_filter (A : Type) (f : A -> Z) (p : A -> bool) (l : list A) :
  has_rows (map f (filter p l)) = existsb p l.
Proof.
  induction l as [| x l IH]; simpl; [reflexivity |].
  destruct (p x); simpl; [reflexivity | exact IH].
Qed.

Lemma taken_iff (ev : Accounts.env) (e u : value) (es us : string)
      (s : Accounts.store) :
  Accounts.sql_text ev e = Some es -> Accounts.sql_text ev u = Some us ->
  has_rows (Accounts.select_taken ev e u s) = true
  <-> exists r, In r (Accounts.users s)
                /\ (Accounts.text_eq ev (Accounts.email r) es = true
                    \/ Accounts.text_eq ev (Accounts.username r) us = true).
Proof.
  intros He Hu. unfold Accounts.select_taken.
  rewrite has_rows_map_filter, existsb_exists, He, Hu. simpl.
  split; intros (r & Hin & H); exists r; (split; [exact Hin |]).
  - apply orb_true_iff. exact H.
  - apply orb_true_iff in H. exact H.
Qed.

(** X15. Registration refuses a taken email or username and otherwise creates
    the account: with the three fields present, it answers 409 and writes
    nothing exactly when some account has that email or that username;
    otherwise it answers 201 with the new key and appends one row that
    holds the email, the username and the bcrypt hash of the password. *)
Theorem register_conflict_or_created (ev : Accounts.env)
        (e u p b g bd l : value) (es us h : string) (s : Accounts.store) :
  truthy e = true -> truthy u = true -> truthy p = true ->
  Accounts.sql_text ev e = Some es -> Accounts.sql_text ev u = Some us ->
  Accounts.bcrypt_hash ev p = Some h ->
  let taken := exists r, In r (Accounts.users s)
                 /\ (Accounts.text_eq ev (Accounts.email r) es = true
                     \/ Accounts.text_eq ev (Accounts.username r) us = true) in
  (taken ->
   Accounts.register ev e u p b g bd l s
   = (Accounts.say 409 "Email of username is al in gebruik.", s))
  /\ (~ taken ->
      Accounts.register ev e u p b g bd l s
      = (Accounts.mkReply 201 "Registratie gelukt" (Some (Accounts.next_user s)) None,
         Accounts.mkStore
           (Accounts.users s
            ++ [Accounts.mkUser (Accounts.next_user s) es h us
                  (Accounts.or_null b) (Accounts.or_null g)
                  (Accounts.or_null bd) (Accounts.or_null l)
                  (Accounts.default_banned ev) (Accounts.default_is_admin ev)
                  (Accounts.default_verified ev)])
           (Accounts.next_user s + 1))).
Proof.
  intros He Hu Hp Hes Hus Hh taken. subst taken.
  unfold Accounts.register. rewrite He, Hu, Hp. cbn [negb orb].
  split; intros Ht.
  - apply (taken_iff ev e u es us s Hes Hus) in Ht. rewrite Ht. reflexivity.
  - destruct (has_rows (Accounts.select_taken ev e u s)) eqn:Hrows.
    + exfalso. apply Ht. apply (taken_iff ev e u es us s Hes Hus). exact Hrows.
    + rewrite Hh. unfold Accounts.insert_user. rewrite Hes, Hus. reflexivity.
Qed.

Lemma register_conflict_or_created_witness :
  let s := Accounts.mkStore
             [Accounts.mkUser 1 "an@x.be" "$2b$10$pw" "an" VNull VNull VNull VNull
                              false false false] 2 in
  let taken := exists r, In r (Accounts.users s)
                 /\ (Accounts.text_eq Accounts.simple (Accounts.email r) "bo@x.be" = true
                     \/ Accounts.text_eq Accounts.simple (Accounts.username r) "an" = true) in
  (taken ->
   Accounts.register Accounts.simple (VStr "bo@x.be") (VStr "an") (VStr "geheim")
                     VUndefined (VStr "") VUndefined (VStr "Gent") s
   = (Accounts.say 409 "Email of username is al in gebruik.", s))
  /\ (~ taken ->
      Accounts.register Accounts.simple (VStr "bo@x.be") (VStr "an") (VStr "geheim")
                        VUndefined (VStr "") VUndefined (VStr "Gent") s
      = (Accounts.mkReply 201 "Registratie gelukt" (Some (Accounts.next_user s)) None,
         Accounts.mkStore
           (Accounts.users s
            ++ [Accounts.mkUser (Accounts.next_user s) "bo@x.be" "$2b$10$geheim" "an"
                  (Accounts.or_null VUndefined) (Accounts.or_null (VStr ""))
                  (Accounts.or_null VUndefined) (Accounts.or_null (VStr "Gent"))
                  (Accounts.default_banned Accounts.simple)
                  (Accounts.default_is_admin Accounts.simple)
                  (Accounts.default_verified Accounts.simple)])
           (Accounts.next_user s + 1))).
Proof.
  intros s.
  apply (register_conflict_or_created Accounts.simple (VStr "bo@x.be") (VStr "an")
           (VStr "geheim") VUndefined (VStr "") VUndefined (VStr "Gent")
           "bo@x.be" "an" "$2b$10$geheim" s); reflexivity.
Defined.

Lemma ForallOrdPairs_snoc (A : Type) (R : A -> A -> Prop) (l : list A) (x : A) :
  ForallOrdPairs R l -> Forall (fun old => R old x) l ->
  ForallOrdPairs R (l ++ [x]).
Proof.
  induction 1 as [| y l Hy Hl IH]; intros Hx; simpl.
  - constructor; constructor.
  - inversion Hx as [| ? ? Hyx Hlx]; subst.
    constructor; [| apply IH, Hlx].
    apply Forall_app. split; [exact Hy | constructor; [exact Hyx | constructor]].
Qed.

Lemma ForallOrdPairs_map (A : Type) (R : A -> A -> Prop) (f : A -> A)
      (l : list A) :
  (forall a b, R a b -> R (f a) (f b)) ->
  ForallOrdPairs R l -> ForallOrdPairs R (map f l).
Proof.
  intros Hf. induction 1 as [| y l Hy Hl IH]; simpl; constructor.
  - apply Forall_map. eapply Forall_impl; [| exact Hy]. intros a. apply Hf.
  - exact IH.
Qed.

(** X16. Run one after the other, the account handlers never leave two accounts
    with the same email or the same username, whatever the requests. *)
Theorem accounts_stay_distinct (pf : platform) (ev : Accounts.env)
        (s : Accounts.store) :
  Accounts.distinct_accounts ev s ->
  (forall e u p b g bd l,
      Accounts.distinct_accounts ev (snd (Accounts.register ev e u p b g bd l s)))
  /\ (forall i, Accounts.distinct_accounts ev (snd (Accounts.admin_ban pf i s)))
  /\ (forall i, Accounts.distinct_accounts ev (snd (Accounts.admin_verify pf i s))).
Proof.
  intros Hinv. split; [| split].
  - intros e u p b g bd l. unfold Accounts.register.
    destruct (negb (truthy e) || negb (truthy u) || negb (truthy p));
      [exact Hinv |].
    destruct (has_rows (Accounts.select_taken ev e u s)) eqn:Hrows;
      [exact Hinv |].
    destruct (Accounts.bcrypt_hash ev p) as [h |]; [| exact Hinv].
    unfold Accounts.insert_user.
    destruct (Accounts.sql_text ev e) as [es |] eqn:Hes; [| exact Hinv].
    destruct (Accounts.sql_text ev u) as [us |] eqn:Hus; [| exact Hinv].
    unfold Accounts.distinct_accounts. cbn [snd Accounts.users].
    apply ForallOrdPairs_snoc; [exact Hinv |].
    apply Forall_forall. intros r Hin. cbn [Accounts.email Accounts.username].
    unfold Accounts.select_taken in Hrows.
    rewrite has_rows_map_filter, Hes, Hus in Hrows.
    assert (Hr : Accounts.text_is ev (Accounts.email r) (Some es)
                 || Accounts.text_is ev (Accounts.username r) (Some us) = false).
    { destruct (_ || _) eqn:Hb; [| reflexivity].
      assert (existsb (fun r0 => Accounts.text_is ev (Accounts.email r0) (Some es)
                        || Accounts.text_is ev (Accounts.username r0) (Some us))
                      (Accounts.users s) = true)
        by (apply existsb_exists; eauto).
      congruence. }
    apply orb_false_iff in Hr. exact Hr.
  - intros i. unfold Accounts.admin_ban.
    destruct (negb (truthy i)); [exact Hinv |].
    unfold Accounts.distinct_accounts. cbn [snd Accounts.users Accounts.update_banned].
    apply ForallOrdPairs_map; [| exact Hinv].
    intros a b H.
    destruct (int_is (Accounts.u_id a) (sqlInt pf i)),
      (int_is (Accounts.u_id b) (sqlInt pf i)); exact H.
  - intros i. unfold Accounts.admin_verify.
    destruct (negb (truthy i)); [exact Hinv |].
    unfold Accounts.distinct_accounts.
    cbn [snd Accounts.users Accounts.update_verified].
    apply ForallOrdPairs_map; [| exact Hinv].
    intros a b H.
    destruct (int_is (Accounts.u_id a) (sqlInt pf i)),
      (int_is (Accounts.u_id b) (sqlInt pf i)); exact H.
Qed.

Lemma accounts_stay_distinct_witness :
  let s := Accounts.mkStore
             [Accounts.mkUser 1 "an@x.be" "$2b$10$pw" "an" VNull VNull VNull VNull
                              false false false;
              Accounts.mkUser 2 "bo@x.be" "$2b$10$pw" "bo" VNull VNull VNull VNull
                              false false false] 3 in
  (forall e u p b g bd l,
      Accounts.distinct_accounts Accounts.simple
        (snd (Accounts.register Accounts.simple e u p b g bd l s)))
  /\ (forall i, Accounts.distinct_accounts Accounts.simple
                  (snd (Accounts.admin_ban plain i s)))
  /\ (forall i, Accounts.distinct_accounts Accounts.simple
                  (snd (Accounts.admin_verify plain i s))).
Proof.
  intros s. apply (accounts_stay_distinct plain Accounts.simple s).
  constructor.
  - constructor; [split; reflexivity | constructor].
  - constructor; [constructor | constructor].
Defined.

(** X17. [POST /login] tells a caller without the password nothing about the
    account: for an unknown email and for a wrong password it gives the
    same 401 and sets no session, also when the account is banned; the 403
    of a banned account and the 200 come only after [bcrypt.compare]
    accepted the password against the hash of the account found. *)
Theorem login_needs_the_password (ev : Accounts.env) (e p : value)
        (s : Accounts.store) :
  let invalid := (Accounts.say 401 "Ongeldige login.", None) in
  (Accounts.select_login ev e s = None ->
   truthy e = true -> truthy p = true ->
   Accounts.login ev e p s = invalid)
  /\ (forall r, Accounts.select_login ev e s = Some r ->
        Accounts.bcrypt_compare ev p (Accounts.password_hash r) = Some false ->
        truthy e = true -> truthy p = true ->
        Accounts.login ev e p s = invalid)
  /\ (Accounts.http (fst (Accounts.login ev e p s)) = 403
      \/ Accounts.http (fst (Accounts.login ev e p s)) = 200 ->
      exists r, Accounts.select_login ev e s = Some r
                /\ Accounts.bcrypt_compare ev p (Accounts.password_hash r) = Some true
                /\ (Accounts.banned r = true
                    <-> Accounts.http (fst (Accounts.login ev e p s)) = 403)
                /\ (Accounts.banned r = false
                    -> snd (Accounts.login ev e p s) = Some (Accounts.u_id r))).
Proof.
  cbv zeta. split; [| split].
  - intros Hnone He Hp. unfold Accounts.login. rewrite He, Hp, Hnone. reflexivity.
  - intros r Hr Hcmp He Hp. unfold Accounts.login.
    rewrite He, Hp, Hr, Hcmp. reflexivity.
  - unfold Accounts.login.
    destruct (negb (truthy e) || negb (truthy p));
      [intros [H | H]; discriminate H |].
    destruct (Accounts.select_login ev e s) as [r |];
      [| intros [H | H]; discriminate H].
    destruct (Accounts.bcrypt_compare ev p (Accounts.password_hash r))
      as [[|] |] eqn:Hcmp;
      cbn [negb]; try (intros [H | H]; discriminate H).
    intros _. exists r. split; [reflexivity |]. split; [exact Hcmp |].
    destruct (Accounts.banned r); cbn.
    + split; [split; reflexivity | discriminate].
    + split; [split; discriminate | reflexivity].
Qed.

Lemma find_snoc_none (A : Type) (p : A -> bool) (l : list A) (x : A) :
  existsb p l = false -> p x = true -> find p (l ++ [x]) = Some x.
Proof.
  induction l as [| y l IH]; simpl; intros Hl Hx.
  - rewrite Hx. reflexivity.
  - apply orb_false_iff in Hl as [Hy Hl]. rewrite Hy. apply IH; assumption.
Qed.

(** X18. Who has registered can log in: after a 201 from [POST /register], a
    login with the same email and password is answered 200 with the
    [userId] of the registration, which is also put in the session,
    provided [bcrypt.compare] accepts a password against its own hash, the
    collation holds a text equal to itself, and new accounts are not
    banned by default. *)
Theorem register_then_login (ev : Accounts.env)
        (e u p b g bd l : value) (es h : string) (s : Accounts.store) :
  Accounts.sql_text ev e = Some es ->
  Accounts.text_eq ev es es = true ->
  Accounts.bcrypt_hash ev p = Some h ->
  Accounts.bcrypt_compare ev p h = Some true ->
  Accounts.default_banned ev = false ->
  Accounts.http (fst (Accounts.register ev e u p b g bd l s)) = 201 ->
  let s' := snd (Accounts.register ev e u p b g bd l s) in
  Accounts.userId (fst (Accounts.register ev e u p b g bd l s))
  = Some (Accounts.next_user s)
  /\ Accounts.login ev e p s'
     = (Accounts.mkReply 200 "Login ok" (Some (Accounts.next_user s))
                         (Some (Accounts.default_is_admin ev)),
        Some (Accounts.next_user s)).
Proof.
  intros Hes Hrefl Hh Hcmp Hdef. unfold Accounts.register.
  destruct (negb (truthy e) || negb (truthy u) || negb (truthy p)) eqn:Hpres;
    [discriminate |].
  destruct (has_rows (Accounts.select_taken ev e u s)) eqn:Hrows;
    [discriminate |].
  rewrite Hh. unfold Accounts.insert_user. rewrite Hes.
  destruct (Accounts.sql_text ev u) as [us |] eqn:Hus; [| discriminate].
  intros _. cbn [fst snd Accounts.userId]. split; [reflexivity |].
  apply orb_false_iff in Hpres as [Hpres Hp].
  apply orb_false_iff in Hpres as [He _].
  apply negb_false_iff in He, Hp.
  unfold Accounts.login. rewrite He, Hp. cbn [negb orb].
  unfold Accounts.select_login. cbn [Accounts.users]. rewrite Hes.
  rewrite find_snoc_none.
  - cbn [Accounts.password_hash Accounts.banned Accounts.u_id Accounts.is_admin].
    rewrite Hcmp, Hdef. reflexivity.
  - unfold Accounts.select_taken in Hrows.
    rewrite has_rows_map_filter, Hes, Hus in Hrows.
    apply not_true_iff_false. intros Hex.
    apply existsb_exists in Hex as (r & Hin & Hr).
    assert (existsb (fun r0 => Accounts.text_is ev (Accounts.email r0) (Some es)
                      || Accounts.text_is ev (Accounts.username r0) (Some us))
                    (Accounts.users s) = true).
    { apply existsb_exists. exists r. split; [exact Hin |].
      rewrite Hr. reflexivity. }
    congruence.
  - simpl. exact Hrefl.
Qed.

Lemma register_then_login_witness :
  let s := Accounts.mkStore
             [Accounts.mkUser 1 "an@x.be" "$2b$10$pw" "an" VNull VNull VNull VNull
                              false false false] 2 in
  let reg := Accounts.register Accounts.simple (VStr "bo@x.be") (VStr "bo")
               (VStr "geheim") VUndefined VUndefined VUndefined VUndefined s in
  Accounts.userId (fst reg) = Some (Accounts.next_user s)
  /\ Accounts.login Accounts.simple (VStr "bo@x.be") (VStr "geheim") (snd reg)
     = (Accounts.mkReply 200 "Login ok" (Some (Accounts.next_user s))
                         (Some (Accounts.default_is_admin Accounts.simple)),
        Some (Accounts.next_user s)).
Proof.
  intros s.
  apply (register_then_login Accounts.simple (VStr "bo@x.be") (VStr "bo")
           (VStr "geheim") VUndefined VUndefined VUndefined VUndefined
           "bo@x.be" "$2b$10$geheim" s); reflexivity.
Defined.

Lemma find_map_flag (p : Accounts.user_row -> bool)
      (f : Accounts.user_row -> Accounts.user_row) (l : list Accounts.user_row) :
  (forall r, p (f r) = p r) ->
  find p (map f l) = option_map f (find p l).
Proof.
  intros Hp. induction l as [| x l IH]; simpl; [reflexivity |].
  rewrite Hp. destruct (p x); [reflexivity | exact IH].
Qed.

(** X19. A ban locks the account out: after [POST /admin/ban] for the id of an
    account, a login with its email and its right password is answered 403
    and sets no session.  The ban changes nothing but the [banned] flag of
    the rows with that id. *)
Theorem ban_blocks_login (pf : platform) (ev : Accounts.env)
        (i e p : value) (r : Accounts.user_row) (s : Accounts.store) :
  truthy i = true -> truthy e = true -> truthy p = true ->
  sqlInt pf i = Some (Accounts.u_id r) ->
  Accounts.select_login ev e s = Some r ->
  Accounts.bcrypt_compare ev p (Accounts.password_hash r) = Some true ->
  let s' := snd (Accounts.admin_ban pf i s) in
  fst (Accounts.admin_ban pf i s) = Accounts.say 200 "Gebruiker geband."
  /\ Accounts.login ev e p s'
     = (Accounts.say 403 "Dit account is geblokkeerd.", None)
  /\ Accounts.users s'
     = map (fun x => if Accounts.u_id x =? Accounts.u_id r
                     then Accounts.set_banned x else x)
           (Accounts.users s)
  /\ Accounts.next_user s' = Accounts.next_user s.
Proof.
  intros Hi He Hp Hid Hfind Hcmp. unfold Accounts.admin_ban. rewrite Hi.
  cbn [negb fst snd]. split; [reflexivity |].
  split; [| split; [| reflexivity]].
  - unfold Accounts.login. rewrite He, Hp. cbn [negb orb].
    unfold Accounts.select_login, Accounts.update_banned. cbn [Accounts.users].
    rewrite find_map_flag.
    + unfold Accounts.select_login in Hfind. rewrite Hfind. cbn [option_map].
      rewrite Hid. unfold int_is. rewrite Z.eqb_refl.
      cbn [Accounts.set_banned Accounts.password_hash Accounts.banned].
      rewrite Hcmp. reflexivity.
    + intros x. destruct (int_is (Accounts.u_id x) (sqlInt pf i)); reflexivity.
  - unfold Accounts.update_banned. cbn [Accounts.users]. rewrite Hid. reflexivity.
Qed.

Lemma ban_blocks_login_witness :
  let an := Accounts.mkUser 1 "an@x.be" "$2b$10$pw" "an" VNull VNull VNull VNull
                            false false false in
  let s := Accounts.mkStore [an] 2 in
  let s' := snd (Accounts.admin_ban plain (VNum 1) s) in
  fst (Accounts.admin_ban plain (VNum 1) s) = Accounts.say 200 "Gebruiker geband."
  /\ Accounts.login Accounts.simple (VStr "an@x.be") (VStr "pw") s'
     = (Accounts.say 403 "Dit account is geblokkeerd.", None)
  /\ Accounts.users s'
     = map (fun x => if Accounts.u_id x =? Accounts.u_id an
                     then Accounts.set_banned x else x)
           (Accounts.users s)
  /\ Accounts.next_user s' = Accounts.next_user s.
Proof.
  intros an s.
  apply (ban_blocks_login plain Accounts.simple (VNum 1) (VStr "an@x.be")
           (VStr "pw") an s); reflexivity.
Defined.

(** ** The list of matches *)

(** X20. [GET /matches] lists, for each match of the user whose other
    participant has an account, that match with the other participant:
    every entry is a match the user is part of, its [other_id] is the
    participant that is not the user and the joined account is that
    participant's; and every such match and account is listed.  With the
    smaller id stored first, nobody is listed as their own match. *)
Theorem matches_list_the_other (pf : platform)
        (order : list match_row -> list match_row)
        (userId : value) (x : Z) (d : db) (s : Accounts.store) :
  (forall l, Permutation l (order l)) ->
  truthy userId = true -> sqlInt pf userId = Some x ->
  match_invariant d ->
  exists rows,
    get_matches pf order userId d s = inr rows
    /\ forall m o u,
         In (m, o, u) rows
         <-> In m (matches d) /\ In u (Accounts.users s)
             /\ Accounts.u_id u = o /\ o <> x
             /\ ((user1_id m = x /\ user2_id m = o)
                 \/ (user2_id m = x /\ user1_id m = o)).
Proof.
  intros Hperm Ht Hx [_ Hcanon].
  unfold get_matches. rewrite Ht. cbn [negb]. eexists. split; [reflexivity |].
  intros m o u. unfold select_matches. rewrite Hx, in_flat_map.
  rewrite Forall_forall in Hcanon.
  split.
  - intros (m' & Hm' & Hin).
    apply (Permutation_in _ (Permutation_sym (Hperm _))) in Hm'.
    apply filter_In in Hm' as [Hm' Hpart].
    apply in_map_iff in Hin as (u' & Heq & Hu').
    injection Heq as -> <- ->.
    apply filter_In in Hu' as [Hu' Hid]. apply Z.eqb_eq in Hid.
    specialize (Hcanon m Hm').
    unfold other_id, int_is in *.
    split; [exact Hm' |]. split; [exact Hu' |]. split; [exact Hid |].
    destruct (Z.eqb_spec (user1_id m) x) as [H1 | H1].
    + split; [lia | left; split; [exact H1 | reflexivity]].
    + simpl in Hpart. apply Z.eqb_eq in Hpart.
      split; [lia | right; split; [exact Hpart | reflexivity]].
  - intros (Hm & Hu & Hid & Hne & Hpart).
    exists m. split.
    + apply (Permutation_in _ (Hperm _)). apply filter_In. split; [exact Hm |].
      unfold int_is. apply orb_true_iff. rewrite !Z.eqb_eq. tauto.
    + apply in_map_iff. exists u.
      assert (Ho : other_id (Some x) m = o).
      { unfold other_id, int_is.
        destruct (Z.eqb_spec (user1_id m) x) as [H1 | H1]; lia. }
      rewrite Ho. split; [reflexivity |].
      apply filter_In. split; [exact Hu | apply Z.eqb_eq, Hid].
Qed.

Lemma matches_list_the_other_witness :
  let s := Accounts.mkStore
             [Accounts.mkUser 5 "an@x.be" "$2b$10$pw" "an" VNull VNull VNull VNull
                              false false false;
              Accounts.mkUser 9 "bo@x.be" "$2b$10$pw" "bo" VNull VNull VNull VNull
                              false false false] 10 in
  exists rows,
    get_matches plain (fun l => l) (VStr "9") matched_5_9 s = inr rows
    /\ forall m o u,
         In (m, o, u) rows
         <-> In m (matches matched_5_9) /\ In u (Accounts.users s)
             /\ Accounts.u_id u = o /\ o <> 9
             /\ ((user1_id m = 9 /\ user2_id m = o)
                 \/ (user2_id m = 9 /\ user1_id m = o)).
Proof.
  intros s.
  apply (matches_list_the_other plain (fun l => l) (VStr "9") 9 matched_5_9 s).
  - intros l. apply Permutation_refl.
  - reflexivity.
  - reflexivity.
  - split.
    + constructor; [simpl; tauto | constructor].
    + constructor; [simpl; lia | constructor].
Defined.

Example matches_of_nine :
  get_matches plain (fun l => l) (VStr "9") matched_5_9
    (Accounts.mkStore
       [Accounts.mkUser 5 "an@x.be" "$2b$10$pw" "an" VNull VNull VNull VNull
                        false false false] 10)
  = inr [(mkMatch 1 5 9, 5,
          Accounts.mkUser 5 "an@x.be" "$2b$10$pw" "an" VNull VNull VNull VNull
                          false false false)].
Proof. reflexivity. Qed.

(** ** Ids that are not numbers *)

(** X21. The order-independence of [orderPair] needs two numbers.  When both
    components of the result are numbers they are the two ids in
    non-decreasing order; when exactly one argument is not a number, the
    result holds a NaN and swapping the arguments swaps the components. *)
Theorem orderPair_edges (pf : platform) (a b : value) :
  (forall u1 u2, orderPair pf a b = (Fin u1, Fin u2) ->
     u1 <= u2
     /\ ((Number pf a = Fin u1 /\ Number pf b = Fin u2)
         \/ (Number pf a = Fin u2 /\ Number pf b = Fin u1)))
  /\ (forall x, Number pf a = NaN -> Number pf b = Fin x ->
        orderPair pf a b = (Fin x, NaN) /\ orderPair pf b a = (NaN, Fin x))
  /\ (Number pf a = NaN \/ Number pf b = NaN
      <-> fst (orderPair pf a b) = NaN \/ snd (orderPair pf a b) = NaN).
Proof.
  unfold orderPair.
  destruct (Number pf a) as [| x], (Number pf b) as [| y]; simpl.
  - split; [discriminate |]. split; [discriminate |]. tauto.
  - split; [discriminate |]. split; [| tauto].
    intros z _ H. injection H as <-. split; reflexivity.
  - split; [discriminate |]. split; [discriminate |]. tauto.
  - split; [| split].
    + intros u1 u2.
      destruct (Z.ltb_spec x y) as [Hlt | Hge]; intros H;
        injection H as <- <-; (split; [lia |]); [left | right]; split; reflexivity.
    + discriminate.
    + destruct (x <? y); simpl; split; intros [H | H]; discriminate H.
Qed.

(** X22. A swipe with an id that is not a number never creates a match:
    whatever the store holds, [matches] is unchanged and the response does
    not say [matched: true] for a new match. *)
Theorem nan_id_never_matches (pf : platform) (s t dir : value) (d : db) :
  Number pf s = NaN \/ Number pf t = NaN ->
  let r := run pf post_swipe_catch (post_swipe pf s t dir) d in
  matches (db_of r) = matches d
  /\ matchId_of (response_of r) = None
  /\ (status (response_of r) = 400 \/ status (response_of r) = 500
      \/ json (response_of r) = swiped).
Proof.
  intros Hnan. unfold post_swipe.
  destruct (negb (truthy s) || negb (truthy t)
            || negb (includes ["left"; "right"] dir));
    [repeat split; left; reflexivity |].
  destruct (num_strict_eq (Number pf s) (Number pf t)) eqn:Hne;
    [repeat split; left; reflexivity |].
  rewrite run_getQuery. cbn [exec].
  destruct (sqlInt pf s) as [a |];
    [| repeat split; right; left; reflexivity].
  destruct (sqlInt pf t) as [b |];
    [| repeat split; right; left; reflexivity].
  destruct (sqlDir dir) as [c |];
    [| repeat split; right; left; reflexivity].
  destruct (is_string dir "right");
    [| repeat split; right; right; reflexivity].
  rewrite run_getQuery. cbn [exec rows_of].
  destruct (has_rows _); [| repeat split; right; right; reflexivity].
  assert (Hop : exists n1 n2, orderPair pf s t = (n1, n2)
                              /\ (n1 = NaN \/ n2 = NaN)).
  { unfold orderPair.
    destruct Hnan as [Hs | Ht]; [rewrite Hs | rewrite Ht].
    - simpl. eauto.
    - destruct (Number pf s); simpl; eauto. }
  destruct Hop as (n1 & n2 & -> & Hn).
  rewrite run_getQuery. cbn [exec].
  destruct n1 as [| u1]; [repeat split; right; left; reflexivity |].
  destruct n2 as [| u2]; [repeat split; right; left; reflexivity |].
  destruct Hn as [Hn | Hn]; discriminate Hn.
Qed.

Lemma nan_id_never_matches_witness :
  let d := mkDb [mkSwipe 1 9 5 right_] [] [] 2 1 1 0 in
  let r := run plain post_swipe_catch
               (post_swipe plain (VStr "abc") (VNum 9) (VStr "right")) d in
  matches (db_of r) = matches d
  /\ matchId_of (response_of r) = None
  /\ (status (response_of r) = 400 \/ status (response_of r) = 500
      \/ json (response_of r) = swiped).
Proof.
  intros d.
  apply (nan_id_never_matches plain (VStr "abc") (VNum 9) (VStr "right") d).
  left. reflexivity.
Defined.
